(** * Schema dependency validator (validate_dependencies.py)

    A shallow embedding of [extract_table_definitions] and
    [validate_dependencies], the two functions of the dependency-ordering
    core, together with the part of Python's [str] and [re] they call.

    Conventions of the embedding.
    - A Python [str] is a [string]; a character is a code point below 256
      (the Latin-1 range), and the character tables below are those of
      CPython for that range.
    - The [tables] dict is an association list in insertion order with
      unique keys; assigning to a key that is present replaces its value
      and keeps its place, as a Python dict does.
    - An exception is a value: functions that can raise return a [result].
    - [validate_dependencies] receives the dict by reference, so it is
      written in a state monad over the dict. *)

From Stdlib Require Import List String Ascii Arith ZArith Bool Lia.
From Stdlib Require Import DecimalString Sorted.
Import ListNotations.

Open Scope string_scope.

(** ** Python strings *)

Module PyStr.

Definition code (c : ascii) : nat := nat_of_ascii c.

Definition between (lo hi n : nat) : bool :=
  Nat.leb lo n && Nat.leb n hi.

(** [str.isspace] on one character: the characters [str.strip()] removes. *)
Definition is_space (c : ascii) : bool :=
  let n := code c in
  between 9 13 n || between 28 32 n || Nat.eqb n 133 || Nat.eqb n 160.

(** The class [\w] of a [str] pattern: alphanumerics and the underscore. *)
Definition is_word (c : ascii) : bool :=
  let n := code c in
  between 48 57 n || between 65 90 n || Nat.eqb n 95 || between 97 122 n
  || Nat.eqb n 170 || between 178 179 n || Nat.eqb n 181 || between 185 186 n
  || between 188 190 n || between 192 214 n || between 216 246 n
  || between 248 255 n.

(** Lower-casing of the ASCII letters, which is all that [re.IGNORECASE]
    needs for the literals of the two patterns. *)
Definition lower (c : ascii) : ascii :=
  let n := code c in
  if between 65 90 n then ascii_of_nat (n + 32) else c.

Fixpoint lstrip (s : string) : string :=
  match s with
  | EmptyString => EmptyString
  | String c s' => if is_space c then lstrip s' else s
  end.

Fixpoint rstrip (s : string) : string :=
  match s with
  | EmptyString => EmptyString
  | String c s' =>
      let t := rstrip s' in
      if is_space c && (t =? "") then EmptyString else String c t
  end.

(** [s.strip()] *)
Definition strip (s : string) : string := rstrip (lstrip s).

(** [s.split(sep)] for a one-character separator: never empty. *)
Fixpoint split (sep : ascii) (s : string) : list string :=
  match s with
  | EmptyString => [EmptyString]
  | String c s' =>
      if Ascii.eqb c sep then EmptyString :: split sep s'
      else match split sep s' with
           | h :: t => String c h :: t
           | [] => [String c EmptyString]
           end
  end.

(** Truth value of a string: non-empty. *)
Definition truthy (s : string) : bool := negb (s =? "").

(** [str(n)] for an integer. *)
Definition of_Z (n : Z) : string := NilZero.string_of_int (Z.to_int n).

End PyStr.

(** ** Regular expressions

    The fragment of [re] the two patterns are written in, matched by
    backtracking as [re] does: literals, greedy [+] on a character class,
    concatenation and the capturing group 1. *)

Module Re.

Inductive regex : Type :=
| Chr (c : ascii)                  (* a literal character *)
| Plus (p : ascii -> bool)         (* greedy, one or more of a class *)
| Cat (r1 r2 : regex)
| Grp (r : regex).                 (* ( ... ), group 1 *)

(** A literal string is the concatenation of its characters. *)
Fixpoint Str (s : string) (r : regex) : regex :=
  match s with
  | EmptyString => r
  | String c s' => Cat (Chr c) (Str s' r)
  end.

Definition chr_eq (ignorecase : bool) (c a : ascii) : bool :=
  if ignorecase then Ascii.eqb (PyStr.lower c) (PyStr.lower a)
  else Ascii.eqb c a.

Section Matcher.
Variable ignorecase : bool.
Context {R : Type}.

(** [exec r s cap k]: match [r] at the head of [s]; [cap] is the text
    of group 1 so far; [k] is what has to match afterwards, and a
    failure of [k] makes [r] try its next alternative. *)
Fixpoint exec (r : regex) (s : string) (cap : string)
         (k : string -> string -> option R) : option R :=
  match r with
  | Chr c =>
      match s with
      | String a s' => if chr_eq ignorecase c a then k s' cap else None
      | EmptyString => None
      end
  | Cat r1 r2 => exec r1 s cap (fun s1 cap1 => exec r2 s1 cap1 k)
  | Grp r1 =>
      exec r1 s cap
           (fun s1 _ => k s1 (substring 0 (length s - length s1) s))
  | Plus p =>
      (fix loop (s : string) : option R :=
         match s with
         | String a s' =>
             if p a then
               match loop s' with
               | Some x => Some x
               | None => k s' cap
               end
             else None
         | EmptyString => None
         end) s
  end.
End Matcher.

(** [re.search(r, s, flags).group(1)], [None] when nothing matches: the
    leftmost position at which [r] matches wins. *)
Fixpoint search (ignorecase : bool) (r : regex) (s : string)
  : option string :=
  match exec ignorecase r s EmptyString (fun _ cap => Some cap) with
  | Some g => Some g
  | None =>
      match s with
      | String _ s' => search ignorecase r s'
      | EmptyString => None
      end
  end.

End Re.

(** ** The extractor *)

(** Exceptions the two functions could raise. *)
Inductive exn : Type := ValueError | KeyError.

Inductive result (A : Type) : Type :=
| Ok (a : A)
| Raise (e : exn).
Arguments Ok {A} a.
Arguments Raise {A} e.

(** The value stored for a table: [{'dependencies': [...], 'line_num': n}]. *)
Record table_info : Type := mk_info {
  dependencies : list string;
  line_num : nat
}.

(** An insertion-ordered dict with [str] keys. *)
Module Dict.

Definition t : Type := list (string * table_info).

Definition keys (d : t) : list string := map fst d.

(** [d.get(k)] / [d[k]] *)
Fixpoint get (k : string) (d : t) : option table_info :=
  match d with
  | [] => None
  | (k', v) :: d' => if String.eqb k k' then Some v else get k d'
  end.

(** [k in d] *)
Definition mem (k : string) (d : t) : bool :=
  match get k d with Some _ => true | None => false end.

(** [d[k] = v]: in place when [k] is present, at the end otherwise. *)
Fixpoint set (k : string) (v : table_info) (d : t) : t :=
  match d with
  | [] => [(k, v)]
  | (k', v') :: d' =>
      if String.eqb k k' then (k', v) :: d' else (k', v') :: set k v d'
  end.

End Dict.

(** [l.index(x)]: the first position of [x], [None] for [ValueError]. *)
Fixpoint list_index (x : string) (l : list string) : option nat :=
  match l with
  | [] => None
  | y :: l' =>
      if String.eqb y x then Some 0
      else match list_index x l' with
           | Some n => Some (S n)
           | None => None
           end
  end.

(** [r'CREATE TABLE IF NOT EXISTS (\w+)'] *)
Definition create_table_pattern : Re.regex :=
  Re.Str "CREATE TABLE IF NOT EXISTS " (Re.Grp (Re.Plus PyStr.is_word)).

(** [r'FOREIGN KEY \([^)]+\) REFERENCES (\w+)\('] *)
Definition foreign_key_pattern : Re.regex :=
  Re.Str "FOREIGN KEY ("
    (Re.Cat (Re.Plus (fun c => negb (Ascii.eqb c ")")))
       (Re.Str ") REFERENCES "
          (Re.Cat (Re.Grp (Re.Plus PyStr.is_word)) (Re.Chr "(")))).

(** [re.search(create_table_pattern, line, re.IGNORECASE)], as group 1. *)
Definition create_match (line : string) : option string :=
  Re.search true create_table_pattern line.

(** [re.search(foreign_key_pattern, line, re.IGNORECASE)], as group 1. *)
Definition fk_match (line : string) : option string :=
  Re.search true foreign_key_pattern line.

(** [len([l for l in lines[:idx] if l.strip()])] *)
Definition count_nonblank (lines : list string) (idx : nat) : nat :=
  List.length
    (filter (fun l => PyStr.truthy (PyStr.strip l)) (firstn idx lines)).

(** The loop state: the dict and [current_table] ([None] before the first
    CREATE TABLE line). *)
Definition extract_state : Type := (Dict.t * option string)%type.

(** One turn of [for line in lines]; [lines] is the whole list, which the
    body searches with [lines.index(line)] after stripping [line]. *)
Definition extract_step (lines : list string) (st : extract_state)
           (raw : string) : result extract_state :=
  let '(tables, current_table) := st in
  let line := PyStr.strip raw in
  match create_match line with
  | Some name =>
      match list_index line lines with
      | None => Raise ValueError
      | Some idx =>
          Ok (Dict.set name (mk_info [] (count_nonblank lines idx)) tables,
              Some name)
      end
  | None =>
      match current_table with
      | Some cur =>
          if PyStr.truthy cur then      (* if current_table: *)
            match fk_match line with
            | Some referenced_table =>
                if negb (String.eqb referenced_table cur) then
                  match Dict.get cur tables with
                  | None => Raise KeyError
                  | Some info =>
                      Ok (Dict.set cur
                            (mk_info (dependencies info ++ [referenced_table])
                                     (line_num info))
                            tables,
                          current_table)
                  end
                else Ok st
            | None => Ok st
            end
          else Ok st
      | None => Ok st
      end
  end.

Fixpoint extract_loop (lines : list string) (todo : list string)
         (st : extract_state) : result extract_state :=
  match todo with
  | [] => Ok st
  | raw :: todo' =>
      match extract_step lines st raw with
      | Ok st' => extract_loop lines todo' st'
      | Raise e => Raise e
      end
  end.

Definition extract_table_definitions (sql_content : string)
  : result Dict.t :=
  let lines := PyStr.split "010" sql_content in
  match extract_loop lines lines ([], None) with
  | Ok (tables, _) => Ok tables
  | Raise e => Raise e
  end.

(** ** The validator *)

(** The two messages [validate_dependencies] appends, with the values that
    fill their holes; [message] gives the text. *)
Inductive violation : Type :=
| UndeclaredReference (subject target : string)
| ForwardReference (subject : string) (subject_position : Z)
                   (target : string) (target_position : Z).

Definition message (v : violation) : string :=
  match v with
  | UndeclaredReference table_name dependency =>
      "Table '" ++ table_name ++ "' references undefined table '"
      ++ dependency ++ "'"
  | ForwardReference table_name p dependency q =>
      "Dependency error: Table '" ++ table_name ++ "' (position "
      ++ PyStr.of_Z p ++ ") references table '" ++ dependency
      ++ "' (position " ++ PyStr.of_Z q ++ ") which is defined later"
  end.

(** Computations that may read or write the dict they were handed and may
    raise. *)
Definition M (A : Type) : Type := Dict.t -> result A * Dict.t.

Definition ret {A} (a : A) : M A := fun tables => (Ok a, tables).

Definition bind {A B} (m : M A) (f : A -> M B) : M B :=
  fun tables =>
    match m tables with
    | (Ok a, tables') => f a tables'
    | (Raise e, tables') => (Raise e, tables')
    end.

Definition raise {A} (e : exn) : M A := fun tables => (Raise e, tables).

Declare Scope py_scope.
Delimit Scope py_scope with py.
Notation "x <- m ;; k" := (bind m (fun x => k))
  (at level 100, m at next level, right associativity) : py_scope.

(** [list(tables.keys())] *)
Definition tables_keys : M (list string) :=
  fun tables => (Ok (Dict.keys tables), tables).

(** [tables[k]] *)
Definition tables_getitem (k : string) : M table_info :=
  fun tables =>
    match Dict.get k tables with
    | Some v => (Ok v, tables)
    | None => (Raise KeyError, tables)
    end.

(** [k in tables] *)
Definition tables_contains (k : string) : M bool :=
  fun tables => (Ok (Dict.mem k tables), tables).

(** [x in l] for a list *)
Definition list_mem (x : string) (l : list string) : bool :=
  existsb (String.eqb x) l.

(** [table_order.index(dependency) if dependency in table_order else -1] *)
Definition index_or_minus_one (dependency : string)
           (table_order : list string) : M Z :=
  if list_mem dependency table_order then
    match list_index dependency table_order with
    | Some n => ret (Z.of_nat n)
    | None => raise ValueError
    end
  else ret (-1)%Z.

(** [for dependency in table_info['dependencies']: ...] *)
Fixpoint for_dependencies (table_order : list string) (i : Z)
         (table_name : string) (deps : list string)
         (errors : list violation) : M (list violation) :=
  match deps with
  | [] => ret errors
  | dependency :: deps' =>
      (present <- tables_contains dependency ;;
       if negb present then
         for_dependencies table_order i table_name deps'
           (errors ++ [UndeclaredReference table_name dependency])
       else
         dependency_index <- index_or_minus_one dependency table_order ;;
         if (dependency_index >? i)%Z then
           for_dependencies table_order i table_name deps'
             (errors ++ [ForwardReference table_name (i + 1) dependency
                                          (dependency_index + 1)])
         else for_dependencies table_order i table_name deps' errors)%py
  end.

(** [for i, table_name in enumerate(table_order): ...], from [i] on *)
Fixpoint for_tables (table_order : list string) (i : Z)
         (todo : list string) (errors : list violation)
  : M (list violation) :=
  match todo with
  | [] => ret errors
  | table_name :: todo' =>
      (table_info <- tables_getitem table_name ;;
       errors' <- for_dependencies table_order i table_name
                    (dependencies table_info) errors ;;
       for_tables table_order (i + 1) todo' errors')%py
  end.

Definition validate_dependencies : M (list violation) :=
  (table_order <- tables_keys ;;
   for_tables table_order 0 table_order [])%py.

(** [extract_table_definitions] then [validate_dependencies], as [main]
    chains them. *)
Definition run (sql_content : string) : result (list violation) :=
  match extract_table_definitions sql_content with
  | Ok tables => fst (validate_dependencies tables)
  | Raise e => Raise e
  end.

(** A document from its lines. *)
Definition unlines (ls : list string) : string :=
  String.concat (String "010" "") ls.

(** ** Notions the statements are written with *)

Open Scope list_scope.

(** What one dependency of one table contributes. *)
Definition check (tables : Dict.t) (i : Z) (table_name dependency : string)
  : list violation :=
  if negb (Dict.mem dependency tables) then
    [UndeclaredReference table_name dependency]
  else
    match list_index dependency (Dict.keys tables) with
    | Some j =>
        if (Z.of_nat j >? i)%Z then
          [ForwardReference table_name (i + 1) dependency (Z.of_nat j + 1)]
        else []
    | None => []
    end.

Definition deps_of (tables : Dict.t) (table_name : string) : list string :=
  match Dict.get table_name tables with
  | Some info => dependencies info
  | None => []
  end.

(** The contributions of the tables [names], numbered from [i] on. *)
Fixpoint violations_from (tables : Dict.t) (i : Z) (names : list string)
  : list violation :=
  match names with
  | [] => []
  | table_name :: names' =>
      flat_map (check tables i table_name) (deps_of tables table_name)
      ++ violations_from tables (i + 1) names'
  end.

Definition violations (tables : Dict.t) : list violation :=
  violations_from tables 0 (Dict.keys tables).

Definition subject (v : violation) : string :=
  match v with
  | UndeclaredReference s _ => s
  | ForwardReference s _ _ _ => s
  end.

Definition target (v : violation) : string :=
  match v with
  | UndeclaredReference _ r => r
  | ForwardReference _ _ r _ => r
  end.

(** A pattern that ends in [(\w+)], or in [(\w+)] and one more character. *)
Definition name_then (p : ascii -> bool) (tail : option ascii) : Re.regex :=
  match tail with
  | None => Re.Grp (Re.Plus p)
  | Some c => Re.Cat (Re.Grp (Re.Plus p)) (Re.Chr c)
  end.

(** The name a line declares, if it is a CREATE TABLE line. *)
Definition declared (raw : string) : option string :=
  create_match (PyStr.strip raw).

(** The name a line references, if it carries a FOREIGN KEY clause. *)
Definition referenced (raw : string) : option string :=
  fk_match (PyStr.strip raw).

Definition is_declaration (raw : string) : bool :=
  match declared raw with Some _ => true | None => false end.

Definition declares (name : string) (raw : string) : bool :=
  match declared raw with Some n => String.eqb n name | None => false end.

(** The names declared by a run of lines, in order, repeats included. *)
Definition declared_names (todo : list string) : list string :=
  flat_map (fun raw => match declared raw with Some n => [n] | None => [] end)
           todo.

(** What the lines of a span add to the dependencies of [d]. *)
Definition span_dependencies (d : string) (span : list string)
  : list string :=
  flat_map (fun raw =>
              match declared raw, referenced raw with
              | None, Some r => if String.eqb r d then [] else [r]
              | _, _ => []
              end) span.

(** A list without its repeats, each name at its first place. *)
Fixpoint first_occurrences (names : list string) : list string :=
  match names with
  | [] => []
  | n :: names' =>
      n :: filter (fun m => negb (String.eqb m n)) (first_occurrences names')
  end.

(** What holds of every state the loop reaches. *)
Record wf_state (st : extract_state) : Prop := {
  wf_keys : NoDup (Dict.keys (fst st));
  wf_current : forall cur, snd st = Some cur ->
                           PyStr.truthy cur = true /\
                           exists info, Dict.get cur (fst st) = Some info;
  wf_no_self : forall k v, In (k, v) (fst st) -> ~ In k (dependencies v)
}.

(** No line of [rest] belongs to the span that precedes it: [rest] is
    empty or opens with a declaration. *)
Definition opens_with_declaration (rest : list string) : bool :=
  match rest with
  | [] => true
  | raw :: _ => is_declaration raw
  end.

(** A dict without its [line_num] fields. *)
Definition shape (tables : Dict.t) : list (string * list string) :=
  map (fun kv => (fst kv, dependencies (snd kv))) tables.

Definition has_subject (d : string) (v : violation) : bool :=
  String.eqb (subject v) d.

Definition has_target (r : string) (v : violation) : bool :=
  String.eqb (target v) r.

(** The violations about the pair [(d, r)]. *)
Definition about (d r : string) (v : violation) : bool :=
  has_subject d v && has_target r v.

(** Whether the check of [r], made for the table at place [i], reports. *)
Definition reported (tables : Dict.t) (i : Z) (r : string) : bool :=
  negb (Dict.mem r tables)
  || match list_index r (Dict.keys tables) with
     | Some j => (Z.of_nat j >? i)%Z
     | None => false
     end.

(** The place of the table a violation is about, among the keys. *)
Definition place (tables : Dict.t) (v : violation) : nat :=
  match list_index (subject v) (Dict.keys tables) with
  | Some i => i
  | None => List.length (Dict.keys tables)
  end.

Definition not_after (tables : Dict.t) (v w : violation) : Prop :=
  place tables v <= place tables w.

(** The validator called [n] times in a row on the dict it was handed. *)
Fixpoint validate_times (n : nat) : M (list (list violation)) :=
  match n with
  | O => ret []
  | S n' =>
      (errors <- validate_dependencies ;;
       more <- validate_times n' ;;
       ret (errors :: more))%py
  end.

(** The whole run, [n] times in a row on the same document. *)
Fixpoint run_times (n : nat) (sql_content : string)
  : list (result (list violation)) :=
  match n with
  | O => []
  | S n' => run sql_content :: run_times n' sql_content
  end.

Definition doc_roles_then_employees : string :=
  unlines ["CREATE TABLE IF NOT EXISTS roles (";
           "    id SERIAL PRIMARY KEY";
           ");";
           "CREATE TABLE IF NOT EXISTS employees (";
           "    role_id INT,";
           "    FOREIGN KEY (role_id) REFERENCES roles(id)";
           ");"].

Definition doc_employees_then_roles : string :=
  unlines ["CREATE TABLE IF NOT EXISTS employees (";
           "    role_id INT,";
           "    FOREIGN KEY (role_id) REFERENCES roles(id)";
           ");";
           "CREATE TABLE IF NOT EXISTS roles (";
           "    id SERIAL PRIMARY KEY";
           ");"].

Definition doc_orders_without_customers : string :=
  unlines ["CREATE TABLE IF NOT EXISTS orders (";
           "    FOREIGN KEY (customer_id) REFERENCES customers(id)";
           ");"].

Definition doc_products_twice : string :=
  unlines ["CREATE TABLE IF NOT EXISTS products (";
           "    FOREIGN KEY (supplier_id) REFERENCES suppliers(id)";
           ");";
           "CREATE TABLE IF NOT EXISTS products (";
           "    id SERIAL PRIMARY KEY";
           ");"].

Definition doc_two_keys_one_target : string :=
  unlines ["CREATE TABLE IF NOT EXISTS orders (";
           "    FOREIGN KEY (buyer_id) REFERENCES customers(id),";
           "    FOREIGN KEY (payer_id) REFERENCES customers(id)";
           ");"].

Definition doc_no_declaration : string :=
  unlines ["-- nothing is created here";
           "FOREIGN KEY (role_id) REFERENCES roles(id)";
           ""].

Definition doc_reference_before_first : string :=
  unlines ["FOREIGN KEY (ghost_id) REFERENCES ghosts(id)";
           "CREATE TABLE IF NOT EXISTS roles (";
           ");"].

Definition doc_self_reference : string :=
  unlines ["CREATE TABLE IF NOT EXISTS categories (";
           "    FOREIGN KEY (parent_id) REFERENCES categories(id)";
           ");"].

Definition doc_indented_declaration : string :=
  " CREATE TABLE IF NOT EXISTS roles (".

(** ** The script's entry point *)

(** What [main] prints: one constructor for each [print] of the source,
    with the values that fill it.  Writing to the standard output is
    taken to succeed. *)
Inductive printed : Type :=
| FileNotFoundMsg          (* "Error: my.sql file not found" *)
| Banner                   (* "=== Schema Dependency Validation ===" *)
| Blank                    (* print() *)
| Found (n : nat)          (* f"Found {len(tables)} tables:" *)
| TableLine (number : Z) (table_name : string) (deps_text : string)
| ValidationFailed         (* "... VALIDATION FAILED" *)
| ErrorsFound              (* "Dependency errors found:" *)
| ErrorLine (error : violation)
| ValidationPassed         (* "... VALIDATION PASSED" *)
| AllInOrder               (* "All tables are defined in correct ..." *)
| FixConfirmed             (* "... Specific fix confirmed: ..." *)
| IssueStillExists.        (* "... Issue still exists: ..." *)

(** How [main] ends: it returns, calls [sys.exit], or lets an exception
    out. *)
Inductive status : Type :=
| Returned
| Exited (code : Z)
| Uncaught (e : exn).

(** [", ".join(info['dependencies']) if info['dependencies'] else "none"] *)
Definition deps_str (info : table_info) : string :=
  match dependencies info with
  | [] => "none"
  | _ :: _ => String.concat ", " (dependencies info)
  end.

(** [for i, (table_name, info) in enumerate(tables.items()): print(...)],
    from [i] on *)
Fixpoint table_lines (i : Z) (items : Dict.t) : list printed :=
  match items with
  | [] => []
  | (table_name, info) :: items' =>
      TableLine (i + 1) table_name (deps_str info)
      :: table_lines (i + 1) items'
  end.

(** The last [if] of [main]: where [roles] stands with respect to
    [employees]. *)
Definition fix_check (tables : Dict.t) : list printed * status :=
  if Dict.mem "employees" tables && Dict.mem "roles" tables then
    match list_index "employees" (Dict.keys tables) with
    | None => ([], Uncaught ValueError)
    | Some employee_pos =>
        match list_index "roles" (Dict.keys tables) with
        | None => ([], Uncaught ValueError)
        | Some roles_pos =>
            if Nat.ltb roles_pos employee_pos
            then ([FixConfirmed], Returned)
            else ([IssueStillExists], Returned)
        end
    end
  else ([], Returned).

(** [main()] from the two outcomes of its [try] block that the script
    goes on from: [Some sql_content] when [f.read()] returned the text
    [sql_content] (decoded, with the newlines text mode gives), [None]
    when [open] raised [FileNotFoundError].  The other ways the [try]
    block can end are in [main_from_file] below. *)
Definition main (my_sql : option string) : list printed * status :=
  match my_sql with
  | None => ([FileNotFoundMsg], Exited 1)
  | Some sql_content =>
      match extract_table_definitions sql_content with
      | Raise e => ([Banner; Blank], Uncaught e)
      | Ok tables =>
          let listing :=
            [Banner; Blank; Found (List.length tables)]
            ++ table_lines 0 tables ++ [Blank] in
          match validate_dependencies tables with
          | (Raise e, _) => (listing, Uncaught e)
          | (Ok [], tables') =>
              let '(more, st) := fix_check tables' in
              (listing ++ [ValidationPassed; AllInOrder] ++ more, st)
          | (Ok errors, _) =>
              (listing ++ [ValidationFailed; ErrorsFound]
                       ++ map ErrorLine errors,
               Exited 1)
          end
      end
  end.

(** The violations among the printed lines. *)
Definition error_lines (out : list printed) : list violation :=
  flat_map (fun l => match l with ErrorLine e => [e] | _ => [] end) out.

(** The numbered table names among the printed lines. *)
Definition listed_tables (out : list printed) : list (Z * string) :=
  flat_map (fun l => match l with
                     | TableLine n name _ => [(n, name)]
                     | _ => []
                     end) out.

(** ** Notions for the patterns *)

(** Every character of [s] is in the class [p]. *)
Fixpoint string_forall (p : ascii -> bool) (s : string) : bool :=
  match s with
  | EmptyString => true
  | String a s' => p a && string_forall p s'
  end.

(** [kw] is the literal [lit] up to the case of its letters. *)
Fixpoint ci_match (lit kw : string) : bool :=
  match lit, kw with
  | EmptyString, EmptyString => true
  | String c lit', String a kw' => Re.chr_eq true c a && ci_match lit' kw'
  | _, _ => false
  end.

(** [s] does not go on with a character of the class [p]. *)
Definition stops (p : ascii -> bool) (s : string) : bool :=
  match s with
  | EmptyString => true
  | String a _ => negb (p a)
  end.

Definition not_paren (c : ascii) : bool := negb (Ascii.eqb c ")").

(** The non-blank lines of a document. *)
Definition nonblank (l : string) : bool := PyStr.truthy (PyStr.strip l).

(** All the dependencies the dict records, table after table. *)
Definition all_dependencies (tables : Dict.t) : list string :=
  flat_map (deps_of tables) (Dict.keys tables).

(** The stripped text of every CREATE TABLE line is itself a line of the
    document: what [lines.index(line)] needs in order to return. *)
Definition declarations_findable (lines : list string) : bool :=
  forallb (fun raw =>
             implb (is_declaration raw) (list_mem (PyStr.strip raw) lines))
          lines.

Definition doc_employees_roles_unrelated : string :=
  unlines ["CREATE TABLE IF NOT EXISTS employees (";
           "    id SERIAL PRIMARY KEY";
           ");";
           "CREATE TABLE IF NOT EXISTS roles (";
           "    id SERIAL PRIMARY KEY";
           ");"].

(** What [open('my.sql', 'r', encoding='utf-8')] and [f.read()] can
    raise. *)
Inductive read_error : Type :=
| FileNotFoundError
| PermissionError
| IsADirectoryError
| OtherOSError
| UnicodeDecodeError.

(** How lines 66-68 end: with the text of the file, or with an
    exception. *)
Inductive read_outcome : Type :=
| ReadText (sql_content : string)
| ReadRaised (e : read_error).

(** How the script ends: as [main] ends once the file is dealt with, or
    with an exception of the [try] block that [except FileNotFoundError]
    does not catch. *)
Inductive script_end : Type :=
| Ended (st : status)
| Escaped (e : read_error).

(** [main()] with its [try] block: only [FileNotFoundError] is caught. *)
Definition main_from_file (o : read_outcome) : list printed * script_end :=
  match o with
  | ReadText sql_content =>
      let '(out, st) := main (Some sql_content) in (out, Ended st)
  | ReadRaised FileNotFoundError =>
      let '(out, st) := main None in (out, Ended st)
  | ReadRaised e => ([], Escaped e)
  end.

Definition doc_two_targets : string :=
  unlines ["CREATE TABLE IF NOT EXISTS shipments (";
           "    FOREIGN KEY (order_id) REFERENCES orders(id),";
           "    FOREIGN KEY (carrier_id) REFERENCES carriers(id)";
           ");"].

(** * Properties *)

(** ** Lists and dicts *)

Lemma list_index_Some (x : string) (l : list string) (n : nat) :
  list_index x l = Some n ->
  nth_error l n = Some x /\ ~ In x (firstn n l).
Proof.
  revert n; induction l as [|y l IH]; intros n; simpl; [discriminate|].
  destruct (String.eqb y x) eqn:E.
  - intros [= <-]. apply String.eqb_eq in E. subst. simpl. auto.
  - destruct (list_index x l) as [m|]; [|discriminate].
    intros [= <-]. destruct (IH m eq_refl) as [H1 H2]. simpl.
    split; [exact H1|]. intros [->|H]; [|contradiction].
    rewrite String.eqb_refl in E. discriminate.
Qed.

Lemma list_index_In (x : string) (l : list string) :
  In x l -> exists n, list_index x l = Some n.
Proof.
  induction l as [|y l IH]; simpl; [contradiction|].
  intros H. destruct (String.eqb y x) eqn:E; [eauto|].
  destruct H as [->|H]; [rewrite String.eqb_refl in E; discriminate|].
  destruct (IH H) as [n ->]. eauto.
Qed.

Lemma list_index_None (x : string) (l : list string) :
  list_index x l = None -> ~ In x l.
Proof.
  intros H HI. destruct (list_index_In x l HI) as [n Hn]. congruence.
Qed.

Lemma list_index_NoDup (x : string) (l : list string) (n : nat) :
  NoDup l -> nth_error l n = Some x -> list_index x l = Some n.
Proof.
  intros ND; revert n; induction ND as [|y l Hy ND IH]; intros n.
  - destruct n; discriminate.
  - destruct n as [|n]; simpl.
    + intros [= ->]. now rewrite String.eqb_refl.
    + intros H. destruct (String.eqb y x) eqn:E.
      * apply String.eqb_eq in E. subst. apply nth_error_In in H.
        contradiction.
      * now rewrite (IH n H).
Qed.

Lemma list_mem_In (x : string) (l : list string) :
  list_mem x l = true <-> In x l.
Proof.
  unfold list_mem. rewrite existsb_exists. split.
  - intros (y & Hy & E). apply String.eqb_eq in E. now subst.
  - intros H. exists x. split; [exact H|apply String.eqb_refl].
Qed.

Module DictFacts.
Import Dict.

Lemma get_Some_In (k : string) (d : t) (v : table_info) :
  get k d = Some v -> In (k, v) d.
Proof.
  induction d as [|[k' v'] d IH]; simpl; [discriminate|].
  destruct (String.eqb k k') eqn:E.
  - apply String.eqb_eq in E. intros [= ->]. subst. auto.
  - auto.
Qed.

Lemma mem_keys (k : string) (d : t) : mem k d = true <-> In k (keys d).
Proof.
  unfold mem. induction d as [|[k' v'] d IH]; simpl.
  - split; [discriminate|contradiction].
  - destruct (String.eqb k k') eqn:E.
    + apply String.eqb_eq in E. subst. tauto.
    + apply String.eqb_neq in E. rewrite IH. split; [tauto|].
      intros [H|H]; [congruence|exact H].
Qed.

Lemma mem_false_keys (k : string) (d : t) :
  mem k d = false <-> ~ In k (keys d).
Proof.
  rewrite <- mem_keys. destruct (mem k d); split; congruence.
Qed.

Lemma get_keys (k : string) (d : t) :
  In k (keys d) -> exists v, get k d = Some v.
Proof.
  intros H. apply mem_keys in H. unfold mem in H.
  destruct (get k d) as [v|]; [eauto|discriminate].
Qed.

Lemma get_In_NoDup (k : string) (v : table_info) (d : t) :
  NoDup (keys d) -> In (k, v) d -> get k d = Some v.
Proof.
  induction d as [|[k' v'] d IH]; simpl; [contradiction|].
  intros ND H. inversion ND as [|? ? Hk ND']; subst.
  destruct H as [[= -> ->]|H].
  - now rewrite String.eqb_refl.
  - destruct (String.eqb k k') eqn:E; [|auto].
    apply String.eqb_eq in E. subst. exfalso. apply Hk.
    change k' with (fst (k', v)). now apply in_map.
Qed.

Lemma get_set_same (k : string) (v : table_info) (d : t) :
  get k (set k v d) = Some v.
Proof.
  induction d as [|[k' v'] d IH]; simpl.
  - now rewrite String.eqb_refl.
  - destruct (String.eqb k k') eqn:E; simpl; rewrite E; auto.
Qed.

Lemma get_set_other (k k0 : string) (v : table_info) (d : t) :
  k0 <> k -> get k0 (set k v d) = get k0 d.
Proof.
  intros N. induction d as [|[k' v'] d IH]; simpl.
  - apply String.eqb_neq in N. now rewrite N.
  - destruct (String.eqb k k') eqn:E; simpl.
    + apply String.eqb_eq in E. subst.
      apply String.eqb_neq in N. now rewrite N.
    + now rewrite IH.
Qed.

Lemma keys_set (k : string) (v : table_info) (d : t) :
  keys (set k v d) = if mem k d then keys d else keys d ++ [k].
Proof.
  unfold mem. induction d as [|[k' v'] d IH]; simpl; [reflexivity|].
  destruct (String.eqb k k') eqn:E; simpl; [reflexivity|].
  rewrite IH. now destruct (get k d).
Qed.

Lemma In_set (k k0 : string) (v v0 : table_info) (d : t) :
  In (k0, v0) (set k v d) -> (k0, v0) = (k, v) \/ In (k0, v0) d.
Proof.
  induction d as [|[k' v'] d IH]; simpl.
  - intros [H|[]]. now left.
  - destruct (String.eqb k k') eqn:E; simpl.
    + apply String.eqb_eq in E. subst. intros [H|H]; auto.
    + intros [H|H]; auto. destruct (IH H); auto.
Qed.

Lemma NoDup_set (k : string) (v : table_info) (d : t) :
  NoDup (keys d) -> NoDup (keys (set k v d)).
Proof.
  intros ND. rewrite keys_set. destruct (mem k d) eqn:E; [exact ND|].
  apply mem_false_keys in E.
  apply NoDup_app; [exact ND|constructor; [simpl; tauto|constructor]|].
  intros x Hx [<-|[]]. contradiction.
Qed.

End DictFacts.

(** ** The validator in closed form *)

Lemma index_or_minus_one_keys (tables : Dict.t) (dependency : string) :
  Dict.mem dependency tables = true ->
  exists j,
    list_index dependency (Dict.keys tables) = Some j /\
    index_or_minus_one dependency (Dict.keys tables) tables
    = (Ok (Z.of_nat j), tables).
Proof.
  intros H. apply DictFacts.mem_keys in H.
  destruct (list_index_In _ _ H) as [j Hj].
  exists j. split; [exact Hj|].
  unfold index_or_minus_one.
  apply list_mem_In in H. rewrite H, Hj. reflexivity.
Qed.

Lemma for_dependencies_spec (tables : Dict.t) (i : Z) (table_name : string)
      (deps : list string) (errors : list violation) :
  for_dependencies (Dict.keys tables) i table_name deps errors tables
  = (Ok (errors ++ flat_map (check tables i table_name) deps), tables).
Proof.
  revert errors; induction deps as [|dependency deps IH]; intros errors.
  - simpl. unfold ret. now rewrite app_nil_r.
  - cbn [for_dependencies flat_map]. unfold bind at 1, tables_contains.
    unfold check at 1.
    destruct (Dict.mem dependency tables) eqn:E; cbn [negb].
    + destruct (index_or_minus_one_keys tables dependency E)
        as (j & Hj & Hidx).
      unfold bind. rewrite Hidx, Hj.
      destruct (Z.of_nat j >? i)%Z.
      * rewrite IH, <- app_assoc. reflexivity.
      * rewrite IH. reflexivity.
    + rewrite IH, <- app_assoc. reflexivity.
Qed.

Lemma for_tables_spec (tables : Dict.t) (i : Z) (todo : list string)
      (errors : list violation) :
  incl todo (Dict.keys tables) ->
  for_tables (Dict.keys tables) i todo errors tables
  = (Ok (errors ++ violations_from tables i todo), tables).
Proof.
  revert i errors; induction todo as [|table_name todo IH];
    intros i errors Hincl.
  - simpl. unfold ret. now rewrite app_nil_r.
  - cbn [for_tables violations_from]. unfold bind at 1, tables_getitem.
    unfold deps_of.
    destruct (DictFacts.get_keys table_name tables) as [info Hinfo].
    { apply Hincl. now left. }
    rewrite Hinfo. unfold bind. rewrite for_dependencies_spec.
    rewrite IH; [|intros x Hx; apply Hincl; now right].
    now rewrite <- app_assoc.
Qed.

(** The validator never raises, returns the closed form and hands the dict
    back as it received it. *)
Lemma validate_dependencies_spec (tables : Dict.t) :
  validate_dependencies tables = (Ok (violations tables), tables).
Proof.
  unfold validate_dependencies, bind, tables_keys.
  rewrite for_tables_spec; [reflexivity|apply incl_refl].
Qed.

(** Every violation comes from a table of the dict and one of its recorded
    dependencies. *)
Lemma violations_from_In (tables : Dict.t) (names : list string) (i : Z)
      (v : violation) :
  In v (violations_from tables i names) ->
  exists k,
    nth_error names k = Some (subject v) /\
    In (target v) (deps_of tables (subject v)) /\
    In v (check tables (i + Z.of_nat k) (subject v) (target v)).
Proof.
  revert i; induction names as [|n names IH]; intros i; simpl;
    [contradiction|].
  rewrite in_app_iff, in_flat_map. intros [(r & Hr & Hv)|H].
  - exists 0%nat. assert (subject v = n /\ target v = r) as [-> ->].
    { unfold check in Hv. destruct (negb (Dict.mem r tables)).
      - destruct Hv as [<-|[]]. now split.
      - destruct (list_index r (Dict.keys tables)); [|contradiction].
        destruct (_ >? _)%Z; [|contradiction].
        destruct Hv as [<-|[]]. now split. }
    rewrite Z.add_0_r. auto.
  - destruct (IH _ H) as (k & H1 & H2 & H3). exists (S k).
    replace (i + Z.of_nat (S k))%Z with (i + 1 + Z.of_nat k)%Z by lia.
    auto.
Qed.

Lemma violations_from_intro (tables : Dict.t) (names : list string) (i : Z)
      (k : nat) (d r : string) (v : violation) :
  nth_error names k = Some d ->
  In r (deps_of tables d) ->
  In v (check tables (i + Z.of_nat k) d r) ->
  In v (violations_from tables i names).
Proof.
  revert i k; induction names as [|n names IH]; intros i k Hk Hr Hv.
  - destruct k; discriminate.
  - simpl. rewrite in_app_iff. destruct k as [|k]; simpl in Hk.
    + injection Hk as ->. left. rewrite in_flat_map. exists r.
      rewrite Z.add_0_r in Hv. auto.
    + right. apply (IH (i + 1)%Z k); auto.
      replace (i + 1 + Z.of_nat k)%Z with (i + Z.of_nat (S k))%Z by lia.
      exact Hv.
Qed.

(** ** The patterns *)

Module ReFacts.
Import Re.

Lemma exec_Str {R : Type} (ic : bool) (p : string) (r : regex)
      (s cap : string) (k : string -> string -> option R) (g : R) :
  exec ic (Str p r) s cap k = Some g ->
  exists s1, exec ic r s1 cap k = Some g.
Proof.
  revert s; induction p as [|c p IH]; intros s; simpl.
  - eauto.
  - destruct s as [|a s]; [discriminate|].
    destruct (chr_eq ic c a); [apply IH|discriminate].
Qed.

Lemma exec_Plus {R : Type} (ic : bool) (p : ascii -> bool)
      (s cap : string) (k : string -> string -> option R) (g : R) :
  exec ic (Plus p) s cap k = Some g ->
  exists s1, k s1 cap = Some g /\ String.length s1 < String.length s.
Proof.
  simpl. induction s as [|a s IH]; [discriminate|].
  destruct (p a); [|discriminate].
  match goal with |- context [match ?x with _ => _ end] =>
    destruct x as [y|] eqn:E end.
  - intros H. destruct (IH H) as (s1 & H1 & H2).
    exists s1. split; [exact H1|simpl; lia].
  - intros H. exists s. split; [exact H|simpl; lia].
Qed.

Lemma length_substring_0 (n : nat) (s : string) :
  n <= String.length s -> String.length (substring 0 n s) = n.
Proof.
  revert n; induction s as [|a s IH]; intros [|n]; simpl; try lia.
  intros H. rewrite IH; lia.
Qed.

(** The name a pattern ending in [(\w+)] captures is not empty. *)
Lemma exec_name_nonempty (ic : bool) (p : ascii -> bool)
      (tail : option ascii) (s cap g : string) :
  exec ic (name_then p tail) s cap (fun _ c => Some c) = Some g ->
  g <> EmptyString.
Proof.
  intros E.
  assert (exists s2, String.length s2 < String.length s /\
                     g = substring 0 (String.length s - String.length s2) s)
    as (s2 & Hlen & ->).
  { destruct tail as [c|]; cbn [name_then exec] in E.
    - change (exec ic (Plus p) s cap
                (fun s1 _ =>
                   exec ic (Chr c) s1
                        (substring 0 (String.length s - String.length s1) s)
                        (fun _ c0 => Some c0)) = Some g) in E.
      apply exec_Plus in E. destruct E as (s2 & E & Hlen).
      exists s2. split; [exact Hlen|].
      simpl in E. destruct s2 as [|b s2]; [discriminate|].
      destruct (chr_eq ic c b); [|discriminate]. now injection E.
    - change (exec ic (Plus p) s cap
                (fun s1 _ =>
                   Some (substring 0 (String.length s - String.length s1) s))
              = Some g) in E.
      apply exec_Plus in E. destruct E as (s2 & E & Hlen).
      exists s2. split; [exact Hlen|]. now injection E. }
  intros Hg. apply (f_equal String.length) in Hg.
  rewrite length_substring_0 in Hg; simpl in Hg; lia.
Qed.

Lemma search_name_nonempty (ic : bool) (lit : string)
      (p : ascii -> bool) (tail : option ascii) (s g : string) :
  search ic (Str lit (name_then p tail)) s = Some g ->
  g <> EmptyString.
Proof.
  induction s as [|a s IH]; cbn [search];
    match goal with |- context [exec ?i ?r ?x ?c ?k] =>
      destruct (exec i r x c k) as [y|] eqn:E end;
    try discriminate; try exact IH.
  all: intros [= <-]; apply exec_Str in E; destruct E as (s1 & E).
  all: exact (exec_name_nonempty _ _ _ _ _ _ E).
Qed.

End ReFacts.

Lemma create_match_nonempty (line name : string) :
  create_match line = Some name -> PyStr.truthy name = true.
Proof.
  intros H. unfold PyStr.truthy.
  apply (ReFacts.search_name_nonempty true _ _ None) in H.
  destruct name; [congruence|reflexivity].
Qed.

(** ** The extractor, line by line *)

Arguments extract_step : simpl never.
Arguments create_match : simpl never.
Arguments fk_match : simpl never.

Lemma step_declaration (lines : list string) (tables : Dict.t)
      (cur : option string) (raw name : string) :
  declared raw = Some name ->
  extract_step lines (tables, cur) raw
  = match list_index (PyStr.strip raw) lines with
    | Some idx =>
        Ok (Dict.set name (mk_info [] (count_nonblank lines idx)) tables,
            Some name)
    | None => Raise ValueError
    end.
Proof.
  unfold declared, extract_step. intros ->. reflexivity.
Qed.

Lemma step_before_first (lines : list string) (tables : Dict.t)
      (raw : string) :
  declared raw = None ->
  extract_step lines (tables, None) raw = Ok (tables, None).
Proof.
  unfold declared, extract_step. intros ->. reflexivity.
Qed.

Lemma step_in_span (lines : list string) (tables : Dict.t)
      (cur raw : string) (info : table_info) :
  declared raw = None ->
  PyStr.truthy cur = true ->
  Dict.get cur tables = Some info ->
  extract_step lines (tables, Some cur) raw
  = Ok (match referenced raw with
        | Some r =>
            if String.eqb r cur then tables
            else Dict.set cur (mk_info (dependencies info ++ [r])
                                       (line_num info)) tables
        | None => tables
        end, Some cur).
Proof.
  unfold declared, referenced, extract_step. intros -> -> Hget.
  destruct (fk_match (PyStr.strip raw)) as [r|]; [|reflexivity].
  destruct (String.eqb r cur); cbn [negb]; [reflexivity|].
  now rewrite Hget.
Qed.

Lemma wf_initial : wf_state ([], None).
Proof.
  split; simpl.
  - constructor.
  - discriminate.
  - contradiction.
Qed.

Lemma step_wf (lines : list string) (st st' : extract_state)
      (raw : string) :
  wf_state st -> extract_step lines st raw = Ok st' -> wf_state st'.
Proof.
  destruct st as [tables cur]. intros [Hk Hc Hs]. cbn [fst snd] in *.
  destruct (declared raw) as [name|] eqn:D.
  - rewrite (step_declaration _ _ _ _ _ D).
    destruct (list_index _ _) as [idx|]; [|discriminate].
    intros [= <-]. split; simpl.
    + now apply DictFacts.NoDup_set.
    + intros c [= <-]. split.
      * exact (create_match_nonempty _ _ D).
      * eexists. apply DictFacts.get_set_same.
    + intros k v H. apply DictFacts.In_set in H.
      destruct H as [[= -> ->]|H]; [simpl; tauto|eauto].
  - destruct cur as [cur|].
    + destruct (Hc cur eq_refl) as [Ht [info Hg]].
      rewrite (step_in_span _ _ _ _ _ D Ht Hg).
      intros [= <-]. destruct (referenced raw) as [r|];
        [destruct (String.eqb r cur) eqn:E|]; try (split; assumption).
      apply String.eqb_neq in E. split; simpl.
      * now apply DictFacts.NoDup_set.
      * intros c [= <-]. split; [exact Ht|].
        eexists. apply DictFacts.get_set_same.
      * intros k v H. apply DictFacts.In_set in H.
        destruct H as [[= -> ->]|H]; [|eauto]. simpl.
        rewrite in_app_iff. intros [H|[H|[]]]; [|congruence].
        apply DictFacts.get_Some_In in Hg. exact (Hs _ _ Hg H).
    + rewrite (step_before_first _ _ _ D). intros [= <-].
      split; assumption.
Qed.

Lemma loop_wf (lines todo : list string) (st st' : extract_state) :
  wf_state st -> extract_loop lines todo st = Ok st' -> wf_state st'.
Proof.
  revert st; induction todo as [|raw todo IH]; intros st W; simpl.
  - now intros [= <-].
  - destruct (extract_step lines st raw) as [st1|e] eqn:E; [|discriminate].
    apply IH. exact (step_wf _ _ _ _ W E).
Qed.

Lemma loop_app (lines a b : list string) (st : extract_state) :
  extract_loop lines (a ++ b) st
  = match extract_loop lines a st with
    | Ok st' => extract_loop lines b st'
    | Raise e => Raise e
    end.
Proof.
  revert st; induction a as [|raw a IH]; intros st; simpl; [reflexivity|].
  destruct (extract_step lines st raw); [apply IH|reflexivity].
Qed.

(** The only exception the loop can raise is the [ValueError] of
    [lines.index(line)], at a CREATE TABLE line. *)
Lemma step_raises (lines : list string) (st : extract_state) (raw : string)
      (e : exn) :
  wf_state st -> extract_step lines st raw = Raise e ->
  e = ValueError /\ is_declaration raw = true /\
  list_index (PyStr.strip raw) lines = None.
Proof.
  destruct st as [tables cur]. intros [Hk Hc Hs]. cbn [fst snd] in *.
  unfold is_declaration. destruct (declared raw) as [name|] eqn:D.
  - rewrite (step_declaration _ _ _ _ _ D).
    destruct (list_index _ _) as [idx|]; [discriminate|].
    now intros [= <-].
  - destruct cur as [cur|].
    + destruct (Hc cur eq_refl) as [Ht [info Hg]].
      rewrite (step_in_span _ _ _ _ _ D Ht Hg). discriminate.
    + rewrite (step_before_first _ _ _ D). discriminate.
Qed.

(** ** The span of a declaration *)

Lemma loop_span (lines span : list string) (tables : Dict.t) (d : string)
      (info : table_info) :
  existsb is_declaration span = false ->
  PyStr.truthy d = true ->
  Dict.get d tables = Some info ->
  exists tables',
    extract_loop lines span (tables, Some d) = Ok (tables', Some d) /\
    Dict.get d tables'
    = Some (mk_info (dependencies info ++ span_dependencies d span)
                    (line_num info)) /\
    forall k, k <> d -> Dict.get k tables' = Dict.get k tables.
Proof.
  intros Hspan Ht. revert tables info.
  induction span as [|raw span IH]; intros tables info Hg.
  - exists tables. simpl. rewrite app_nil_r. destruct info. auto.
  - simpl in Hspan. apply orb_false_elim in Hspan as [Hraw Hspan].
    unfold is_declaration in Hraw.
    destruct (declared raw) eqn:D; [discriminate|].
    cbn [extract_loop span_dependencies flat_map].
    rewrite (step_in_span _ _ _ _ _ D Ht Hg), D.
    destruct (referenced raw) as [r|]; [destruct (String.eqb r d) eqn:E|].
    + exact (IH Hspan tables info Hg).
    + destruct (IH Hspan _ _ (DictFacts.get_set_same d
                 (mk_info (dependencies info ++ [r]) (line_num info)) tables))
        as (tables' & H1 & H2 & H3).
      exists tables'. split; [exact H1|]. split.
      * rewrite H2. simpl. now rewrite <- app_assoc.
      * intros k Hk. rewrite (H3 k Hk).
        now apply DictFacts.get_set_other.
    + exact (IH Hspan tables info Hg).
Qed.

(** Lines that do not declare [d], met while another table is current,
    leave the entry of [d] alone. *)
Lemma loop_elsewhere (lines todo : list string) (d : string)
      (st st' : extract_state) :
  wf_state st ->
  existsb (declares d) todo = false ->
  snd st <> Some d ->
  extract_loop lines todo st = Ok st' ->
  Dict.get d (fst st') = Dict.get d (fst st) /\ snd st' <> Some d.
Proof.
  revert st; induction todo as [|raw todo IH]; intros st W Hno Hcur; simpl.
  - intros [= <-]. auto.
  - simpl in Hno. apply orb_false_elim in Hno as [Hraw Hno].
    destruct (extract_step lines st raw) as [st1|e] eqn:E; [|discriminate].
    intros Hloop. pose proof (step_wf _ _ _ _ W E) as W1.
    assert (Dict.get d (fst st1) = Dict.get d (fst st) /\ snd st1 <> Some d)
      as [H1 H2].
    { destruct st as [tables cur]. cbn [fst snd] in *.
      unfold declares in Hraw. destruct (declared raw) as [name|] eqn:D.
      - apply String.eqb_neq in Hraw.
        rewrite (step_declaration _ _ _ _ _ D) in E.
        destruct (list_index _ _); [|discriminate].
        injection E as <-. simpl. split; [|congruence].
        apply DictFacts.get_set_other. congruence.
      - destruct cur as [cur|].
        + destruct (wf_current _ W cur eq_refl) as [Ht [info Hg]].
          cbn [fst] in Hg.
          rewrite (step_in_span _ _ _ _ _ D Ht Hg) in E.
          injection E as <-. simpl. split; [|exact Hcur].
          destruct (referenced raw) as [r|]; [|reflexivity].
          destruct (String.eqb r cur); [reflexivity|].
          apply DictFacts.get_set_other. congruence.
        + rewrite (step_before_first _ _ _ D) in E.
          injection E as <-. auto. }
    destruct (IH st1 W1 Hno H2 Hloop) as [H3 H4].
    split; [congruence|exact H4].
Qed.

(** The dependencies recorded for [d] are those of the span of its last
    declaration, one entry per line of the span whose FOREIGN KEY clause
    names another table. *)
Lemma extract_loop_span (lines pre span rest : list string)
      (raw d : string) (st : extract_state) :
  declared raw = Some d ->
  existsb is_declaration span = false ->
  opens_with_declaration rest = true ->
  existsb (declares d) rest = false ->
  extract_loop lines (pre ++ raw :: span ++ rest) ([], None) = Ok st ->
  exists info,
    Dict.get d (fst st) = Some info /\
    dependencies info = span_dependencies d span.
Proof.
  intros D Hspan Hopen Hrest. rewrite loop_app.
  destruct (extract_loop lines pre ([], None)) as [[t0 c0]|] eqn:E0;
    [|discriminate].
  pose proof (loop_wf _ _ _ _ wf_initial E0) as W0.
  cbn [extract_loop]. rewrite (step_declaration _ _ _ _ _ D).
  destruct (list_index _ _) as [idx|] eqn:Ei; [|discriminate].
  set (v := mk_info [] (count_nonblank lines idx)).
  assert (W1 : wf_state (Dict.set d v t0, Some d)).
  { apply (step_wf lines (t0, c0) _ raw W0).
    now rewrite (step_declaration _ _ _ _ _ D), Ei. }
  rewrite loop_app.
  destruct (loop_span lines span (Dict.set d v t0) d v Hspan
              (create_match_nonempty _ _ D)
              (DictFacts.get_set_same d v t0))
    as (t1 & E1 & G1 & _).
  rewrite E1. pose proof (loop_wf _ _ _ _ W1 E1) as W2.
  intros E2. simpl in G1.
  assert (Dict.get d (fst st) = Dict.get d t1) as ->.
  { destruct rest as [|raw2 rest].
    - simpl in E2. now injection E2 as <-.
    - cbn [opens_with_declaration] in Hopen. unfold is_declaration in Hopen.
      destruct (declared raw2) as [e|] eqn:D2; [|discriminate].
      simpl in Hrest. apply orb_false_elim in Hrest as [Hraw2 Hrest].
      unfold declares in Hraw2. rewrite D2 in Hraw2.
      apply String.eqb_neq in Hraw2.
      cbn [extract_loop] in E2.
      destruct (extract_step lines (t1, Some d) raw2) as [st2|] eqn:E3;
        [|discriminate].
      pose proof (step_wf _ _ _ _ W2 E3) as W3.
      rewrite (step_declaration _ _ _ _ _ D2) in E3.
      destruct (list_index (PyStr.strip raw2) lines); [|discriminate].
      injection E3 as <-.
      assert (Hne : Some e <> Some d) by congruence.
      destruct (loop_elsewhere _ _ d _ _ W3 Hrest Hne E2) as [H _].
      rewrite H. simpl. apply DictFacts.get_set_other. congruence. }
  eexists. split; [exact G1|reflexivity].
Qed.

(** ** The order of the keys *)

Lemma filter_filter_and {A : Type} (f g : A -> bool) (l : list A) :
  filter f (filter g l) = filter (fun x => g x && f x) l.
Proof.
  induction l as [|x l IH]; simpl; [reflexivity|].
  destruct (g x); simpl; [destruct (f x)|]; now rewrite IH.
Qed.

Lemma step_keys_other (lines : list string) (st st' : extract_state)
      (raw : string) :
  wf_state st -> declared raw = None ->
  extract_step lines st raw = Ok st' ->
  Dict.keys (fst st') = Dict.keys (fst st) /\ snd st' = snd st.
Proof.
  destruct st as [tables [cur|]]; intros W D; cbn [fst snd].
  - destruct (wf_current _ W cur eq_refl) as [Ht [info Hg]].
    cbn [fst] in Hg. rewrite (step_in_span _ _ _ _ _ D Ht Hg).
    intros [= <-]. split; [|reflexivity]. cbn [fst].
    destruct (referenced raw) as [r|]; [|reflexivity].
    destruct (String.eqb r cur); [reflexivity|].
    rewrite DictFacts.keys_set. unfold Dict.mem. now rewrite Hg.
  - rewrite (step_before_first _ _ _ D). now intros [= <-].
Qed.

Lemma loop_keys (lines todo : list string) (st st' : extract_state) :
  wf_state st ->
  extract_loop lines todo st = Ok st' ->
  Dict.keys (fst st')
  = Dict.keys (fst st)
    ++ filter (fun m => negb (list_mem m (Dict.keys (fst st))))
              (first_occurrences (declared_names todo)).
Proof.
  revert st; induction todo as [|raw todo IH]; intros st W; simpl.
  - intros [= <-]. now rewrite app_nil_r.
  - destruct (extract_step lines st raw) as [st1|e] eqn:E; [|discriminate].
    intros Hloop. pose proof (step_wf _ _ _ _ W E) as W1.
    rewrite (IH st1 W1 Hloop).
    destruct (declared raw) as [n|] eqn:D.
    + destruct st as [tables cur].
      rewrite (step_declaration _ _ _ _ _ D) in E.
      destruct (list_index _ _); [|discriminate].
      injection E as <-. cbn [fst app first_occurrences filter].
      rewrite DictFacts.keys_set, filter_filter_and.
      destruct (Dict.mem n tables) eqn:M.
      * apply DictFacts.mem_keys, list_mem_In in M. rewrite M.
        cbn [negb]. f_equal. apply filter_ext_in. intros m _.
        destruct (String.eqb m n) eqn:N; [|reflexivity].
        apply String.eqb_eq in N. subst. now rewrite M.
      * apply DictFacts.mem_false_keys in M.
        destruct (list_mem n (Dict.keys tables)) eqn:M'.
        { apply list_mem_In in M'. contradiction. }
        cbn [negb]. rewrite <- app_assoc. simpl. do 2 f_equal.
        apply filter_ext. intros m. unfold list_mem.
        rewrite existsb_app. simpl. rewrite orb_false_r, negb_orb.
        apply andb_comm.
    + destruct (step_keys_other _ _ _ _ W D E) as [-> _]. reflexivity.
Qed.

(** ** What the result owes to line numbers: nothing *)

Lemma shape_keys (tables : Dict.t) : Dict.keys tables = map fst (shape tables).
Proof.
  unfold Dict.keys, shape. rewrite map_map. reflexivity.
Qed.

Lemma shape_get (t1 t2 : Dict.t) (k : string) :
  shape t1 = shape t2 ->
  option_map dependencies (Dict.get k t1)
  = option_map dependencies (Dict.get k t2).
Proof.
  revert t2; induction t1 as [|[k1 v1] t1 IH]; intros [|[k2 v2] t2];
    simpl; try discriminate; [reflexivity|].
  intros [= -> Hv Ht]. destruct (String.eqb k k2); simpl; [now f_equal|auto].
Qed.

Lemma shape_set (t1 t2 : Dict.t) (k : string) (v1 v2 : table_info) :
  shape t1 = shape t2 -> dependencies v1 = dependencies v2 ->
  shape (Dict.set k v1 t1) = shape (Dict.set k v2 t2).
Proof.
  intros Ht Hv; revert t2 Ht; induction t1 as [|[k1 w1] t1 IH];
    intros [|[k2 w2] t2]; simpl; try discriminate.
  - intros _. now rewrite Hv.
  - intros [= -> Hw Ht]. destruct (String.eqb k k2); simpl.
    + now rewrite Hv, Ht.
    + now rewrite Hw, (IH _ Ht).
Qed.

Lemma step_shape (lines1 lines2 : list string) (t1 t2 : Dict.t)
      (cur : option string) (raw : string) (st1 st2 : extract_state) :
  shape t1 = shape t2 ->
  extract_step lines1 (t1, cur) raw = Ok st1 ->
  extract_step lines2 (t2, cur) raw = Ok st2 ->
  shape (fst st1) = shape (fst st2) /\ snd st1 = snd st2.
Proof.
  intros Hs. unfold extract_step.
  destruct (create_match (PyStr.strip raw)) as [name|].
  - destruct (list_index _ lines1); [|discriminate].
    destruct (list_index _ lines2); [|discriminate].
    intros [= <-] [= <-]. split; [|reflexivity].
    now apply shape_set.
  - destruct cur as [cur|]; [|now intros [= <-] [= <-]].
    destruct (PyStr.truthy cur); [|now intros [= <-] [= <-]].
    destruct (fk_match (PyStr.strip raw)) as [r|];
      [|now intros [= <-] [= <-]].
    destruct (negb (String.eqb r cur)); [|now intros [= <-] [= <-]].
    pose proof (shape_get t1 t2 cur Hs) as Hg.
    destruct (Dict.get cur t1) as [i1|]; [|discriminate].
    destruct (Dict.get cur t2) as [i2|]; [|discriminate].
    simpl in Hg. injection Hg as Hg.
    intros [= <-] [= <-]. split; [|reflexivity].
    apply shape_set; [exact Hs|simpl; now rewrite Hg].
Qed.

Lemma loop_shape (lines1 lines2 todo : list string)
      (s1 s2 st1 st2 : extract_state) :
  shape (fst s1) = shape (fst s2) -> snd s1 = snd s2 ->
  extract_loop lines1 todo s1 = Ok st1 ->
  extract_loop lines2 todo s2 = Ok st2 ->
  shape (fst st1) = shape (fst st2) /\ snd st1 = snd st2.
Proof.
  revert s1 s2; induction todo as [|raw todo IH]; intros s1 s2 Hs Hc; simpl.
  - intros [= <-] [= <-]. auto.
  - destruct (extract_step lines1 s1 raw) as [a1|] eqn:E1; [|discriminate].
    destruct (extract_step lines2 s2 raw) as [a2|] eqn:E2; [|discriminate].
    destruct s1 as [t1 c1], s2 as [t2 c2]. cbn [fst snd] in *. subst c2.
    destruct (step_shape _ _ _ _ _ _ _ _ Hs E1 E2) as [Hs' Hc'].
    exact (IH a1 a2 Hs' Hc').
Qed.

Lemma violations_shape (t1 t2 : Dict.t) :
  shape t1 = shape t2 -> violations t1 = violations t2.
Proof.
  intros Hs. unfold violations.
  assert (Hk : Dict.keys t1 = Dict.keys t2) by (now rewrite !shape_keys, Hs).
  rewrite <- Hk. generalize (Dict.keys t1) as names. generalize 0%Z.
  assert (Hd : forall n, deps_of t1 n = deps_of t2 n).
  { intros n. unfold deps_of. pose proof (shape_get _ _ n Hs) as H.
    destruct (Dict.get n t1), (Dict.get n t2); simpl in H; congruence. }
  assert (Hm : forall n, Dict.mem n t1 = Dict.mem n t2).
  { intros n. unfold Dict.mem. pose proof (shape_get _ _ n Hs) as H.
    destruct (Dict.get n t1), (Dict.get n t2); simpl in H; congruence. }
  intros i names; revert i; induction names as [|n names IH]; intros i;
    simpl; [reflexivity|].
  rewrite IH, Hd. f_equal. apply flat_map_ext. intros r.
  unfold check. now rewrite Hm, Hk.
Qed.

(** ** Documents used as examples *)

Example scenario_a : run doc_roles_then_employees = Ok [].
Proof. vm_compute. reflexivity. Qed.

Example scenario_b :
  run doc_employees_then_roles
  = Ok [ForwardReference "employees" 1 "roles" 2].
Proof. vm_compute. reflexivity. Qed.

Example scenario_c :
  run doc_orders_without_customers
  = Ok [UndeclaredReference "orders" "customers"].
Proof. vm_compute. reflexivity. Qed.

Example scenario_b_message :
  map message [ForwardReference "employees" 1 "roles" 2]
  = ["Dependency error: Table 'employees' (position 1) references table 'roles' (position 2) which is defined later"].
Proof. vm_compute. reflexivity. Qed.

(** ** The claims *)

Lemma loop_before_first (lines pre : list string) (tables : Dict.t) :
  existsb is_declaration pre = false ->
  extract_loop lines pre (tables, None) = Ok (tables, None).
Proof.
  induction pre as [|raw pre IH]; simpl; [reflexivity|].
  intros H. apply orb_false_elim in H as [Hraw Hpre].
  unfold is_declaration in Hraw.
  destruct (declared raw) eqn:D; [discriminate|].
  rewrite (step_before_first _ _ _ D). exact (IH Hpre).
Qed.

(** C8. A document without any CREATE TABLE line gives the empty dict, and
    the validator gives the empty list on it; nothing is raised. *)
Theorem no_declaration_gives_nothing (sql_content : string) :
  existsb is_declaration (PyStr.split "010" sql_content) = false ->
  extract_table_definitions sql_content = Ok [] /\
  validate_dependencies [] = (Ok [], []) /\
  run sql_content = Ok [].
Proof.
  intros H.
  assert (E : extract_table_definitions sql_content = Ok []).
  { unfold extract_table_definitions.
    now rewrite (loop_before_first _ _ [] H). }
  split; [exact E|]. split; [reflexivity|].
  unfold run. now rewrite E.
Qed.

Lemma no_declaration_gives_nothing_witness :
  existsb is_declaration (PyStr.split "010" doc_no_declaration) = false /\
  extract_table_definitions doc_no_declaration = Ok [] /\
  validate_dependencies [] = (Ok [], []) /\
  run doc_no_declaration = Ok [].
Proof.
  split.
  - vm_compute. reflexivity.
  - apply (no_declaration_gives_nothing doc_no_declaration).
    vm_compute. reflexivity.
Defined.

(** C10. Lines that stand before the first CREATE TABLE line are dropped:
    after them the dict is still empty and no table is current, and what
    the document yields (names, dependencies, violations) is what any
    other document with the same lines from the first declaration on
    yields, whatever stands before. *)
Theorem references_before_first_declaration_dropped
        (sql_content : string) (pre rest : list string) (tables : Dict.t) :
  PyStr.split "010" sql_content = pre ++ rest ->
  existsb is_declaration pre = false ->
  extract_table_definitions sql_content = Ok tables ->
  extract_loop (pre ++ rest) pre ([], None) = Ok ([], None) /\
  forall (sql_content' : string) (pre' : list string) (tables' : Dict.t),
    PyStr.split "010" sql_content' = pre' ++ rest ->
    existsb is_declaration pre' = false ->
    extract_table_definitions sql_content' = Ok tables' ->
    shape tables' = shape tables /\
    fst (validate_dependencies tables') = fst (validate_dependencies tables).
Proof.
  intros Hsplit Hpre Hext.
  split; [exact (loop_before_first _ _ _ Hpre)|].
  intros sql' pre' tables' Hsplit' Hpre' Hext'.
  unfold extract_table_definitions in Hext, Hext'.
  rewrite Hsplit in Hext. rewrite Hsplit' in Hext'.
  rewrite loop_app, (loop_before_first _ _ _ Hpre) in Hext.
  rewrite loop_app, (loop_before_first _ _ _ Hpre') in Hext'.
  revert Hext' Hext.
  destruct (extract_loop (pre ++ rest) rest _)
    as [[t c]|] eqn:E; [|congruence].
  destruct (extract_loop (pre' ++ rest) rest _)
    as [[t' c']|] eqn:E'; [|congruence].
  intros [= <-] [= <-].
  destruct (loop_shape _ _ _ _ _ _ _ eq_refl eq_refl E' E) as [Hs _].
  cbn [fst] in Hs. split; [exact Hs|].
  rewrite !validate_dependencies_spec. simpl.
  now rewrite (violations_shape _ _ Hs).
Qed.

Lemma references_before_first_declaration_dropped_witness :
  let pre := ["FOREIGN KEY (ghost_id) REFERENCES ghosts(id)"] in
  let rest := ["CREATE TABLE IF NOT EXISTS roles ("; ");"] in
  let tables := [("roles", mk_info [] 1)] in
  PyStr.split "010" doc_reference_before_first = pre ++ rest /\
  existsb is_declaration pre = false /\
  extract_table_definitions doc_reference_before_first = Ok tables /\
  extract_loop (pre ++ rest) pre ([], None) = Ok ([], None) /\
  forall (sql_content' : string) (pre' : list string) (tables' : Dict.t),
    PyStr.split "010" sql_content' = pre' ++ rest ->
    existsb is_declaration pre' = false ->
    extract_table_definitions sql_content' = Ok tables' ->
    shape tables' = shape tables /\
    fst (validate_dependencies tables') = fst (validate_dependencies tables).
Proof.
  intros pre rest tables.
  refine (conj _ (conj _ (conj _
           (references_before_first_declaration_dropped
              doc_reference_before_first pre rest tables _ _ _))));
    vm_compute; reflexivity.
Defined.

(** C5. No entry of the extracted dict lists its own name: a FOREIGN KEY
    line that names the current table leaves the state as it is, so the
    validator never reports a table against itself. *)
Theorem self_reference_not_recorded (sql_content : string)
        (tables : Dict.t) :
  extract_table_definitions sql_content = Ok tables ->
  (forall name info,
      Dict.get name tables = Some info -> ~ In name (dependencies info)) /\
  (forall lines tables0 cur raw,
      declared raw = None -> referenced raw = Some cur ->
      extract_step lines (tables0, Some cur) raw = Ok (tables0, Some cur)) /\
  exists errors,
    validate_dependencies tables = (Ok errors, tables) /\
    forall name p q,
      ~ In (UndeclaredReference name name) errors /\
      ~ In (ForwardReference name p name q) errors.
Proof.
  intros Hext. unfold extract_table_definitions in Hext.
  destruct (extract_loop _ _ _) as [[t c]|] eqn:E in Hext;
    [|discriminate Hext].
  injection Hext as ->.
  pose proof (loop_wf _ _ _ _ wf_initial E) as W.
  assert (Hself : forall name info,
             Dict.get name tables = Some info ->
             ~ In name (dependencies info)).
  { intros name info Hg. apply DictFacts.get_Some_In in Hg.
    exact (wf_no_self _ W _ _ Hg). }
  split; [exact Hself|]. split.
  - intros lines tables0 cur raw D Hr.
    unfold declared, referenced in *. unfold extract_step.
    rewrite D, Hr, String.eqb_refl. cbn [negb].
    now destruct (PyStr.truthy cur).
  - exists (violations tables).
    split; [apply validate_dependencies_spec|].
    assert (forall v, In v (violations tables) -> subject v <> target v)
      as Hne.
    { intros v Hv Heq. apply violations_from_In in Hv.
      destruct Hv as (k & _ & Hd & _). unfold deps_of in Hd.
      destruct (Dict.get (subject v) tables) as [info|] eqn:G;
        [|contradiction].
      apply (Hself _ _ G). now rewrite Heq at 1. }
    intros name p q. split; intros H; exact (Hne _ H eq_refl).
Qed.

Lemma self_reference_not_recorded_witness :
  let tables := [("categories", mk_info [] 0)] in
  extract_table_definitions doc_self_reference = Ok tables /\
  (forall name info,
      Dict.get name tables = Some info -> ~ In name (dependencies info)) /\
  (forall lines tables0 cur raw,
      declared raw = None -> referenced raw = Some cur ->
      extract_step lines (tables0, Some cur) raw = Ok (tables0, Some cur)) /\
  exists errors,
    validate_dependencies tables = (Ok errors, tables) /\
    forall name p q,
      ~ In (UndeclaredReference name name) errors /\
      ~ In (ForwardReference name p name q) errors.
Proof.
  intros tables.
  refine (conj _ (self_reference_not_recorded doc_self_reference tables _));
    vm_compute; reflexivity.
Defined.

(** C9. The validator hands the dict back exactly as it received it, and
    does so for every dict, be it the extractor's or not. *)
Theorem validate_leaves_tables_unchanged (tables : Dict.t) :
  snd (validate_dependencies tables) = tables.
Proof.
  now rewrite validate_dependencies_spec.
Qed.

(** C2, at the input where it fails. A CREATE TABLE line with a space in
    front is stripped before [lines.index(line)] looks for it among the
    unstripped lines, which raises [ValueError]; the same line without the
    space is accepted. *)
Theorem indented_declaration_raises :
  extract_table_definitions doc_indented_declaration = Raise ValueError /\
  run doc_indented_declaration = Raise ValueError /\
  extract_table_definitions "CREATE TABLE IF NOT EXISTS roles ("
  = Ok [("roles", mk_info [] 0)].
Proof.
  vm_compute. repeat split.
Qed.

(** Apart from that [ValueError] nothing is raised: the extractor returns
    whenever the stripped text of each CREATE TABLE line is itself a line
    of the document, and the validator always returns. *)
Lemma extract_loop_returns (lines todo : list string) (st : extract_state) :
  wf_state st ->
  (forall raw, In raw todo -> is_declaration raw = true ->
               In (PyStr.strip raw) lines) ->
  exists st', extract_loop lines todo st = Ok st'.
Proof.
  revert st; induction todo as [|raw todo IH]; intros st W H; simpl.
  - eauto.
  - destruct (extract_step lines st raw) as [st1|e] eqn:E.
    + apply IH; [exact (step_wf _ _ _ _ W E)|].
      intros x Hx. apply H. now right.
    + destruct (step_raises _ _ _ _ W E) as (_ & Hd & Hi).
      exfalso. apply (list_index_None _ _ Hi), H; [now left|exact Hd].
Qed.

Lemma extract_returns (sql_content : string) :
  (forall raw, In raw (PyStr.split "010" sql_content) ->
               is_declaration raw = true -> PyStr.strip raw = raw) ->
  exists tables, extract_table_definitions sql_content = Ok tables.
Proof.
  intros H. unfold extract_table_definitions.
  destruct (extract_loop_returns (PyStr.split "010" sql_content)
              (PyStr.split "010" sql_content) ([], None) wf_initial)
    as [[t c] ->]; [|eauto].
  intros raw Hin Hd. now rewrite (H raw Hin Hd).
Qed.

(** It does raise at the first CREATE TABLE line whose stripped text is
    not a line of the document. *)
Lemma extract_raises (sql_content : string) (pre rest : list string)
      (raw : string) :
  PyStr.split "010" sql_content = pre ++ raw :: rest ->
  existsb is_declaration pre = false ->
  is_declaration raw = true ->
  list_index (PyStr.strip raw) (PyStr.split "010" sql_content) = None ->
  extract_table_definitions sql_content = Raise ValueError.
Proof.
  intros Hsplit Hpre Hraw Hidx. unfold extract_table_definitions.
  rewrite Hsplit at 2.
  rewrite loop_app, (loop_before_first _ _ _ Hpre).
  cbn [extract_loop]. unfold is_declaration in Hraw.
  destruct (declared raw) as [name|] eqn:D; [|discriminate].
  now rewrite (step_declaration _ _ _ _ _ D), Hidx.
Qed.

Example scenario_d :
  run doc_products_twice = Ok [] /\
  extract_table_definitions doc_products_twice
  = Ok [("products", mk_info [] 0)].
Proof. vm_compute. split; reflexivity. Qed.

Lemma check_mem_false (tables : Dict.t) (i : Z) (d r : string) :
  Dict.mem r tables = false ->
  check tables i d r = [UndeclaredReference d r].
Proof.
  unfold check. now intros ->.
Qed.

Lemma check_mem_true (tables : Dict.t) (i : Z) (d r : string) (j : nat) :
  list_index r (Dict.keys tables) = Some j ->
  check tables i d r
  = if (Z.of_nat j >? i)%Z
    then [ForwardReference d (i + 1) r (Z.of_nat j + 1)] else [].
Proof.
  intros Hj. unfold check.
  assert (Dict.mem r tables = true) as ->.
  { apply DictFacts.mem_keys. apply list_index_Some in Hj as [Hn _].
    exact (nth_error_In _ _ Hn). }
  now rewrite Hj.
Qed.

Lemma violations_intro (tables : Dict.t) (i : nat) (d r : string)
      (info : table_info) (v : violation) :
  nth_error (Dict.keys tables) i = Some d ->
  Dict.get d tables = Some info ->
  In r (dependencies info) ->
  In v (check tables (Z.of_nat i) d r) ->
  In v (violations tables).
Proof.
  intros Hi Hg Hr Hv. apply (violations_from_intro tables _ 0 i d r).
  - exact Hi.
  - unfold deps_of. now rewrite Hg.
  - exact Hv.
Qed.

(** C4. A dependency that is not a key of the dict is reported as
    undeclared and never as a forward reference; the one list the run
    returns holds the report of every such pair and of every forward
    reference, so no report stops the pass. *)
Theorem undeclared_reference_reported (tables : Dict.t) (d r : string)
        (info : table_info) :
  Dict.get d tables = Some info ->
  In r (dependencies info) ->
  Dict.mem r tables = false ->
  exists errors,
    validate_dependencies tables = (Ok errors, tables) /\
    In (UndeclaredReference d r) errors /\
    (forall p q, ~ In (ForwardReference d p r q) errors) /\
    forall i' d' info' r',
      nth_error (Dict.keys tables) i' = Some d' ->
      Dict.get d' tables = Some info' ->
      In r' (dependencies info') ->
      (Dict.mem r' tables = false ->
       In (UndeclaredReference d' r') errors) /\
      (forall j',
          list_index r' (Dict.keys tables) = Some j' -> i' < j' ->
          In (ForwardReference d' (Z.of_nat i' + 1) r' (Z.of_nat j' + 1))
             errors).
Proof.
  intros Hg Hr Hm. exists (violations tables).
  split; [apply validate_dependencies_spec|].
  assert (Hall : forall i' d' info' r',
             nth_error (Dict.keys tables) i' = Some d' ->
             Dict.get d' tables = Some info' ->
             In r' (dependencies info') ->
             (Dict.mem r' tables = false ->
              In (UndeclaredReference d' r') (violations tables)) /\
             (forall j',
                 list_index r' (Dict.keys tables) = Some j' -> i' < j' ->
                 In (ForwardReference d' (Z.of_nat i' + 1) r'
                                      (Z.of_nat j' + 1))
                    (violations tables))).
  { intros i' d' info' r' Hi' Hg' Hr'. split.
    - intros Hm'. apply (violations_intro _ i' d' r' info'); auto.
      rewrite check_mem_false by exact Hm'. now left.
    - intros j' Hj' Hlt. apply (violations_intro _ i' d' r' info'); auto.
      rewrite (check_mem_true _ _ _ _ _ Hj').
      destruct (Z.gtb_spec (Z.of_nat j') (Z.of_nat i')); [now left|lia]. }
  split; [|split; [|exact Hall]].
  - assert (In d (Dict.keys tables)) as Hin.
    { apply DictFacts.mem_keys. unfold Dict.mem. now rewrite Hg. }
    apply In_nth_error in Hin as [i Hi].
    exact (proj1 (Hall i d info r Hi Hg Hr) Hm).
  - intros p q Hv. apply violations_from_In in Hv.
    destruct Hv as (k & _ & _ & Hc). simpl in Hc.
    rewrite check_mem_false in Hc by exact Hm.
    destruct Hc as [Hc|[]]. discriminate Hc.
Qed.

Lemma undeclared_reference_reported_witness :
  let tables := [("orders", mk_info ["customers"; "items"] 0);
                 ("items", mk_info [] 3)] in
  let info := mk_info ["customers"; "items"] 0 in
  Dict.get "orders" tables = Some info /\
  In "customers" (dependencies info) /\
  Dict.mem "customers" tables = false /\
  exists errors,
    validate_dependencies tables = (Ok errors, tables) /\
    In (UndeclaredReference "orders" "customers") errors /\
    (forall p q, ~ In (ForwardReference "orders" p "customers" q) errors) /\
    forall i' d' info' r',
      nth_error (Dict.keys tables) i' = Some d' ->
      Dict.get d' tables = Some info' ->
      In r' (dependencies info') ->
      (Dict.mem r' tables = false ->
       In (UndeclaredReference d' r') errors) /\
      (forall j',
          list_index r' (Dict.keys tables) = Some j' -> i' < j' ->
          In (ForwardReference d' (Z.of_nat i' + 1) r' (Z.of_nat j' + 1))
             errors).
Proof.
  intros tables info.
  refine (conj _ (conj _ (conj _
           (undeclared_reference_reported tables "orders" "customers" info
              _ _ _)))).
  - reflexivity.
  - simpl. auto.
  - reflexivity.
  - reflexivity.
  - simpl. auto.
  - reflexivity.
Defined.

(** With unique keys, a violation about the table at place [i] comes from
    the check made at [i]. *)
Lemma violations_about (tables : Dict.t) (i : nat) (d : string)
      (v : violation) :
  NoDup (Dict.keys tables) ->
  nth_error (Dict.keys tables) i = Some d ->
  In v (violations tables) ->
  subject v = d ->
  In (target v) (deps_of tables d) /\
  In v (check tables (Z.of_nat i) d (target v)).
Proof.
  intros ND Hi Hv Hs. apply violations_from_In in Hv.
  destruct Hv as (k & Hk & Hd & Hc). rewrite Hs in *.
  assert (k = i) as ->.
  { apply (proj1 (NoDup_nth_error (Dict.keys tables)) ND).
    - apply nth_error_Some. congruence.
    - congruence. }
  auto.
Qed.

(** C3. For a declared dependency [r] of the table [d], the validator
    reports a forward reference, with the two places counted from 1, if
    and only if [r] stands after [d]; it reports the pair in no other way,
    and not at all when [r] stands before [d]. *)
Theorem forward_reference_iff_declared_later (tables : Dict.t)
        (d r : string) (info : table_info) (i j : nat) :
  NoDup (Dict.keys tables) ->
  nth_error (Dict.keys tables) i = Some d ->
  Dict.get d tables = Some info ->
  In r (dependencies info) ->
  list_index r (Dict.keys tables) = Some j ->
  exists errors,
    validate_dependencies tables = (Ok errors, tables) /\
    (In (ForwardReference d (Z.of_nat i + 1) r (Z.of_nat j + 1)) errors
     <-> i < j) /\
    (forall v, In v errors -> subject v = d -> target v = r ->
               v = ForwardReference d (Z.of_nat i + 1) r (Z.of_nat j + 1)) /\
    (j <= i ->
     forall v, In v errors -> ~ (subject v = d /\ target v = r)).
Proof.
  intros ND Hi Hg Hr Hj. exists (violations tables).
  split; [apply validate_dependencies_spec|].
  assert (Hchk : forall v, In v (violations tables) ->
                           subject v = d -> target v = r ->
                           i < j /\
                           v = ForwardReference d (Z.of_nat i + 1) r
                                                (Z.of_nat j + 1)).
  { intros v Hv Hs Ht.
    destruct (violations_about _ _ _ _ ND Hi Hv Hs) as [_ Hc].
    rewrite Ht, (check_mem_true _ _ _ _ _ Hj) in Hc.
    destruct (Z.gtb_spec (Z.of_nat j) (Z.of_nat i)); [|contradiction].
    destruct Hc as [<-|[]]. split; [lia|reflexivity]. }
  split; [split|split].
  - intros Hv. exact (proj1 (Hchk _ Hv eq_refl eq_refl)).
  - intros Hlt. apply (violations_intro _ i d r info); auto.
    rewrite (check_mem_true _ _ _ _ _ Hj).
    destruct (Z.gtb_spec (Z.of_nat j) (Z.of_nat i)); [now left|lia].
  - intros v Hv Hs Ht. exact (proj2 (Hchk _ Hv Hs Ht)).
  - intros Hle v Hv [Hs Ht]. destruct (Hchk _ Hv Hs Ht) as [Hlt _]. lia.
Qed.

Lemma forward_reference_iff_declared_later_witness :
  let tables := [("employees", mk_info ["roles"] 0);
                 ("roles", mk_info [] 4)] in
  let info := mk_info ["roles"] 0 in
  exists errors,
    validate_dependencies tables = (Ok errors, tables) /\
    (In (ForwardReference "employees" 1 "roles" 2) errors <-> 0 < 1) /\
    (forall v, In v errors ->
               subject v = "employees" -> target v = "roles" ->
               v = ForwardReference "employees" 1 "roles" 2) /\
    (1 <= 0 ->
     forall v, In v errors ->
               ~ (subject v = "employees" /\ target v = "roles")).
Proof.
  intros tables info.
  apply (forward_reference_iff_declared_later tables "employees" "roles"
           info 0 1).
  - repeat constructor; simpl; intuition discriminate.
  - reflexivity.
  - reflexivity.
  - simpl. auto.
  - reflexivity.
Defined.

(** ** The violations of one table *)

Lemma check_In (tables : Dict.t) (i : Z) (n x : string) (v : violation) :
  In v (check tables i n x) -> subject v = n /\ target v = x.
Proof.
  unfold check. destruct (negb (Dict.mem x tables)).
  - intros [<-|[]]. now split.
  - destruct (list_index x (Dict.keys tables)); [|contradiction].
    destruct (_ >? _)%Z; [|contradiction]. intros [<-|[]]. now split.
Qed.

Lemma check_reported (tables : Dict.t) (i : Z) (n x : string) :
  map target (check tables i n x)
  = if reported tables i x then [x] else [].
Proof.
  unfold check, reported. destruct (negb (Dict.mem x tables)); simpl;
    [reflexivity|].
  destruct (list_index x (Dict.keys tables)); [|reflexivity].
  now destruct (_ >? _)%Z.
Qed.

Lemma filter_none {A : Type} (f : A -> bool) (l : list A) :
  (forall x, In x l -> f x = false) -> filter f l = [].
Proof.
  induction l as [|x l IH]; simpl; [reflexivity|]. intros H.
  rewrite (H x) by now left. apply IH. intros y Hy. apply H. now right.
Qed.

Lemma filter_all {A : Type} (f : A -> bool) (l : list A) :
  (forall x, In x l -> f x = true) -> filter f l = l.
Proof.
  induction l as [|x l IH]; simpl; [reflexivity|]. intros H.
  rewrite (H x) by now left. f_equal. apply IH. intros y Hy. apply H.
  now right.
Qed.

Lemma filter_subject_checks (tables : Dict.t) (i : Z) (n d : string)
      (deps : list string) :
  filter (has_subject d) (flat_map (check tables i n) deps)
  = if String.eqb n d then flat_map (check tables i n) deps else [].
Proof.
  destruct (String.eqb n d) eqn:E.
  - apply filter_all. intros v Hv. apply in_flat_map in Hv as (x & _ & Hv).
    apply check_In in Hv as [Hs _]. unfold has_subject. now rewrite Hs.
  - apply filter_none. intros v Hv. apply in_flat_map in Hv as (x & _ & Hv).
    apply check_In in Hv as [Hs _]. unfold has_subject. now rewrite Hs.
Qed.

Lemma filter_subject_absent (tables : Dict.t) (i : Z) (names : list string)
      (d : string) :
  ~ In d names ->
  filter (has_subject d) (violations_from tables i names) = [].
Proof.
  revert i; induction names as [|n names IH]; intros i Hd; simpl;
    [reflexivity|].
  rewrite filter_app, filter_subject_checks, IH by (simpl in Hd; tauto).
  destruct (String.eqb n d) eqn:E; [|reflexivity].
  apply String.eqb_eq in E. subst. simpl in Hd. tauto.
Qed.

(** The violations of the table at place [k] are those of its own
    dependencies, in the order of the list. *)
Lemma filter_subject_from (tables : Dict.t) (i : Z) (names : list string)
      (k : nat) (d : string) :
  NoDup names -> nth_error names k = Some d ->
  filter (has_subject d) (violations_from tables i names)
  = flat_map (check tables (i + Z.of_nat k) d) (deps_of tables d).
Proof.
  intros ND; revert i k; induction ND as [|n names Hn ND IH];
    intros i k Hk; [destruct k; discriminate|].
  simpl. rewrite filter_app, filter_subject_checks.
  destruct k as [|k]; simpl in Hk.
  - injection Hk as ->. rewrite String.eqb_refl, Z.add_0_r.
    rewrite filter_subject_absent by exact Hn. apply app_nil_r.
  - assert (n <> d) as Hne.
    { intros ->. apply nth_error_In in Hk. contradiction. }
    apply String.eqb_neq in Hne. rewrite Hne. simpl.
    rewrite (IH (i + 1)%Z k Hk). f_equal. f_equal. lia.
Qed.

Lemma count_target_checks (tables : Dict.t) (i : Z) (d r : string)
      (deps : list string) :
  List.length (filter (has_target r) (flat_map (check tables i d) deps))
  = if reported tables i r then count_occ string_dec deps r else 0.
Proof.
  induction deps as [|x deps IH]; simpl.
  - now destruct (reported tables i r).
  - rewrite filter_app, length_app, IH.
    destruct (string_dec x r) as [->|Hne].
    + rewrite filter_all.
      * pose proof (check_reported tables i d r) as H.
        apply (f_equal (@List.length string)) in H.
        rewrite length_map in H. rewrite H.
        now destruct (reported tables i r).
      * intros v Hv. apply check_In in Hv as [_ Ht].
        unfold has_target. rewrite Ht. apply String.eqb_refl.
    + rewrite filter_none; [reflexivity|].
      intros v Hv. apply check_In in Hv as [_ Ht].
      unfold has_target. rewrite Ht. now apply String.eqb_neq.
Qed.

(** With unique keys, the validator reports the pair [(d, r)] once for
    each place [r] has in the dependencies of [d], or not at all. *)
Lemma count_about (tables : Dict.t) (k : nat) (d r : string) :
  NoDup (Dict.keys tables) ->
  nth_error (Dict.keys tables) k = Some d ->
  List.length (filter (about d r) (violations tables))
  = if reported tables (Z.of_nat k) r
    then count_occ string_dec (deps_of tables d) r else 0.
Proof.
  intros ND Hk. unfold violations.
  rewrite <- (count_target_checks tables (Z.of_nat k) d r).
  change (Z.of_nat k) with (0 + Z.of_nat k)%Z.
  rewrite <- (filter_subject_from tables 0 _ k d ND Hk).
  rewrite filter_filter_and. reflexivity.
Qed.

Lemma extract_wf (sql_content : string) (tables : Dict.t) :
  extract_table_definitions sql_content = Ok tables ->
  exists cur,
    extract_loop (PyStr.split "010" sql_content)
                 (PyStr.split "010" sql_content) ([], None)
    = Ok (tables, cur) /\
    wf_state (tables, cur).
Proof.
  unfold extract_table_definitions.
  destruct (extract_loop _ _ _) as [[t c]|] eqn:E; [|discriminate].
  intros [= <-]. exists c. split; [reflexivity|].
  exact (loop_wf _ _ _ _ wf_initial E).
Qed.

(** C6, against the claim. Two FOREIGN KEY lines of one table that name
    the same table leave the name twice in the list, and the validator
    reports the pair twice. *)
Lemma dependencies_keep_repeats :
  extract_table_definitions doc_two_keys_one_target
  = Ok [("orders", mk_info ["customers"; "customers"] 0)] /\
  count_occ string_dec ["customers"; "customers"] "customers" = 2 /\
  run doc_two_keys_one_target
  = Ok [UndeclaredReference "orders" "customers";
        UndeclaredReference "orders" "customers"].
Proof.
  vm_compute. repeat split.
Qed.

(** C6, amended. The dependencies of [d] are a list with one entry for
    each line of the span of its last declaration whose FOREIGN KEY clause
    names another table, repeats kept and in the order of the lines; the
    validator reports the pair [(d, r)] at most once per place of [r] in
    that list, and exactly once per place when [r] is not declared. *)
Theorem dependencies_one_entry_per_line
        (sql_content : string) (pre span rest : list string)
        (raw d : string) (tables : Dict.t) :
  PyStr.split "010" sql_content = pre ++ raw :: span ++ rest ->
  declared raw = Some d ->
  existsb is_declaration span = false ->
  opens_with_declaration rest = true ->
  existsb (declares d) rest = false ->
  extract_table_definitions sql_content = Ok tables ->
  exists info errors,
    Dict.get d tables = Some info /\
    dependencies info = span_dependencies d span /\
    validate_dependencies tables = (Ok errors, tables) /\
    forall r,
      List.length (filter (about d r) errors)
      <= count_occ string_dec (dependencies info) r /\
      (Dict.mem r tables = false ->
       List.length (filter (about d r) errors)
       = count_occ string_dec (dependencies info) r).
Proof.
  intros Hsplit D Hspan Hopen Hrest Hext.
  destruct (extract_wf _ _ Hext) as (cur & Hloop & W).
  rewrite Hsplit in Hloop at 2.
  destruct (extract_loop_span _ _ _ _ _ _ _ D Hspan Hopen Hrest Hloop)
    as (info & Hg & Hdeps).
  cbn [fst] in Hg. exists info, (violations tables).
  split; [exact Hg|]. split; [exact Hdeps|].
  split; [apply validate_dependencies_spec|].
  pose proof (wf_keys _ W) as ND. cbn [fst] in ND.
  assert (In d (Dict.keys tables)) as Hin.
  { apply DictFacts.mem_keys. unfold Dict.mem. now rewrite Hg. }
  apply In_nth_error in Hin as [k Hk].
  intros r. rewrite (count_about _ k d r ND Hk).
  unfold deps_of. rewrite Hg. split.
  - destruct (reported tables (Z.of_nat k) r); lia.
  - intros Hm. unfold reported. now rewrite Hm.
Qed.

Lemma dependencies_one_entry_per_line_witness :
  let raw := "CREATE TABLE IF NOT EXISTS orders (" in
  let span := ["    FOREIGN KEY (buyer_id) REFERENCES customers(id),";
               "    FOREIGN KEY (payer_id) REFERENCES customers(id)";
               ");"] in
  let tables := [("orders", mk_info ["customers"; "customers"] 0)] in
  PyStr.split "010" doc_two_keys_one_target = [] ++ raw :: span ++ [] /\
  declared raw = Some "orders" /\
  existsb is_declaration span = false /\
  opens_with_declaration [] = true /\
  existsb (declares "orders") [] = false /\
  extract_table_definitions doc_two_keys_one_target = Ok tables /\
  exists info errors,
    Dict.get "orders" tables = Some info /\
    dependencies info = span_dependencies "orders" span /\
    validate_dependencies tables = (Ok errors, tables) /\
    forall r,
      List.length (filter (about "orders" r) errors)
      <= count_occ string_dec (dependencies info) r /\
      (Dict.mem r tables = false ->
       List.length (filter (about "orders" r) errors)
       = count_occ string_dec (dependencies info) r).
Proof.
  intros raw span tables.
  refine (conj _ (conj _ (conj _ (conj _ (conj _ (conj _
           (dependencies_one_entry_per_line doc_two_keys_one_target
              [] span [] raw "orders" tables _ _ _ _ _ _)))))));
    vm_compute; reflexivity.
Defined.

(** C1, against the claim. A table declared twice has one entry, the
    dependency recorded after its first declaration is gone, and the
    validator reports nothing. *)
Lemma duplicate_declaration_overwrites :
  declared_names (PyStr.split "010" doc_products_twice)
  = ["products"; "products"] /\
  extract_table_definitions doc_products_twice
  = Ok [("products", mk_info [] 0)] /\
  run doc_products_twice = Ok [].
Proof.
  vm_compute. repeat split.
Qed.

(** C1, amended. Each declared name has one entry, the entries stand in
    the order of the first declarations, the record of a name is the one
    its last declaration started, and every violation reports a recorded
    dependency of a key: none reports a repeated declaration. *)
Theorem duplicate_declaration_keeps_last_record
        (sql_content : string) (tables : Dict.t) :
  extract_table_definitions sql_content = Ok tables ->
  NoDup (Dict.keys tables) /\
  Dict.keys tables
  = first_occurrences (declared_names (PyStr.split "010" sql_content)) /\
  (forall pre raw span rest d,
      PyStr.split "010" sql_content = pre ++ raw :: span ++ rest ->
      declared raw = Some d ->
      existsb is_declaration span = false ->
      opens_with_declaration rest = true ->
      existsb (declares d) rest = false ->
      exists info,
        Dict.get d tables = Some info /\
        dependencies info = span_dependencies d span) /\
  exists errors,
    validate_dependencies tables = (Ok errors, tables) /\
    forall v, In v errors ->
              In (subject v) (Dict.keys tables) /\
              In (target v) (deps_of tables (subject v)).
Proof.
  intros Hext. destruct (extract_wf _ _ Hext) as (cur & Hloop & W).
  split; [exact (wf_keys _ W)|]. split.
  - pose proof (loop_keys _ _ _ _ wf_initial Hloop) as Hk.
    cbn [fst] in Hk. change (Dict.keys []) with (@nil string) in Hk.
    cbn [app] in Hk. rewrite Hk.
    apply filter_all. reflexivity.
  - split.
    + intros pre raw span rest d Hsplit D Hspan Hopen Hrest.
      rewrite Hsplit in Hloop at 2.
      exact (extract_loop_span _ _ _ _ _ _ _ D Hspan Hopen Hrest Hloop).
    + exists (violations tables).
      split; [apply validate_dependencies_spec|].
      intros v Hv. apply violations_from_In in Hv.
      destruct Hv as (k & Hk & Hd & _).
      split; [exact (nth_error_In _ _ Hk)|exact Hd].
Qed.

Lemma duplicate_declaration_keeps_last_record_witness :
  extract_table_definitions doc_products_twice
  = Ok [("products", mk_info [] 0)] /\
  Dict.keys [("products", mk_info [] 0)]
  = first_occurrences
      (declared_names (PyStr.split "010" doc_products_twice)) /\
  exists info,
    Dict.get "products" [("products", mk_info [] 0)] = Some info /\
    dependencies info
    = span_dependencies "products" ["    id SERIAL PRIMARY KEY"; ");"].
Proof.
  assert (E : extract_table_definitions doc_products_twice
              = Ok [("products", mk_info [] 0)])
    by (vm_compute; reflexivity).
  destruct (duplicate_declaration_keeps_last_record _ _ E)
    as (_ & Hkeys & Hlast & _).
  split; [exact E|]. split; [exact Hkeys|].
  apply (Hlast ["CREATE TABLE IF NOT EXISTS products (";
                "    FOREIGN KEY (supplier_id) REFERENCES suppliers(id)";
                ");"]
               "CREATE TABLE IF NOT EXISTS products ("
               ["    id SERIAL PRIMARY KEY"; ");"] []);
    vm_compute; reflexivity.
Defined.

(** ** The order of the violations *)

Lemma StronglySorted_app {A : Type} (R : A -> A -> Prop) (l1 l2 : list A) :
  StronglySorted R l1 -> StronglySorted R l2 ->
  (forall x y, In x l1 -> In y l2 -> R x y) ->
  StronglySorted R (l1 ++ l2).
Proof.
  induction 1 as [|x l1 S1 IH F1]; intros S2 H; simpl; [exact S2|].
  constructor.
  - apply IH; [exact S2|]. intros a b Ha Hb. apply H; [now right|exact Hb].
  - apply Forall_app. split; [exact F1|].
    apply Forall_forall. intros y Hy. apply H; [now left|exact Hy].
Qed.

Lemma StronglySorted_all {A : Type} (R : A -> A -> Prop) (l : list A) :
  (forall x y, In x l -> In y l -> R x y) -> StronglySorted R l.
Proof.
  induction l as [|x l IH]; intros H; constructor.
  - apply IH. intros a b Ha Hb. apply H; now right.
  - apply Forall_forall. intros y Hy. apply H; [now left|now right].
Qed.

Lemma list_index_fresh (n : string) (pre rest : list string) :
  ~ In n pre -> list_index n (pre ++ n :: rest) = Some (List.length pre).
Proof.
  induction pre as [|y pre IH]; simpl; intros H.
  - now rewrite String.eqb_refl.
  - destruct (String.eqb y n) eqn:E.
    + apply String.eqb_eq in E. tauto.
    + rewrite IH by tauto. reflexivity.
Qed.

Lemma violations_from_sorted (tables : Dict.t) (names pre : list string)
      (i : Z) :
  NoDup (Dict.keys tables) ->
  Dict.keys tables = pre ++ names ->
  StronglySorted (not_after tables) (violations_from tables i names) /\
  forall v, In v (violations_from tables i names) ->
            List.length pre <= place tables v.
Proof.
  intros ND. revert pre i; induction names as [|n names IH];
    intros pre i Hk; simpl.
  - split; [constructor|contradiction].
  - assert (Hk' : Dict.keys tables = (pre ++ [n]) ++ names)
      by (now rewrite <- app_assoc).
    destruct (IH (pre ++ [n]) (i + 1)%Z Hk') as [Hs Hp].
    rewrite length_app in Hp. simpl in Hp.
    assert (Hhere : forall v,
               In v (flat_map (check tables i n) (deps_of tables n)) ->
               place tables v = List.length pre).
    { intros v Hv. apply in_flat_map in Hv as (x & _ & Hv).
      apply check_In in Hv as [Hsub _]. unfold place.
      rewrite Hsub, Hk, list_index_fresh; [reflexivity|].
      rewrite Hk in ND. apply NoDup_remove_2 in ND.
      intros Hin. apply ND, in_or_app. now left. }
    split.
    + apply StronglySorted_app; [|exact Hs|].
      * apply StronglySorted_all. intros x y Hx Hy. unfold not_after.
        rewrite (Hhere x Hx), (Hhere y Hy). lia.
      * intros x y Hx Hy. unfold not_after.
        rewrite (Hhere x Hx). specialize (Hp y Hy). lia.
    + intros v Hv. apply in_app_or in Hv as [Hv|Hv].
      * rewrite (Hhere v Hv). lia.
      * specialize (Hp v Hv). lia.
Qed.

Lemma map_target_checks (tables : Dict.t) (i : Z) (d : string)
      (deps : list string) :
  map target (flat_map (check tables i d) deps)
  = filter (reported tables i) deps.
Proof.
  induction deps as [|x deps IH]; simpl; [reflexivity|].
  rewrite map_app, IH, check_reported.
  now destruct (reported tables i x).
Qed.

Lemma validate_times_spec (n : nat) (tables : Dict.t) :
  validate_times n tables = (Ok (repeat (violations tables) n), tables).
Proof.
  induction n as [|n IH]; simpl; [reflexivity|].
  unfold bind. now rewrite validate_dependencies_spec, IH.
Qed.

(** C7. The run is a function of the document: the keys stand in the
    order of the first declarations, the violations stand in the order of
    the keys of their tables and, for one table, in the order of its
    dependencies, which is the order of the lines of its span that name
    them; running again, the validator alone or the whole run, gives the
    same list every time. *)
Theorem violations_in_document_order (sql_content : string)
        (tables : Dict.t) :
  extract_table_definitions sql_content = Ok tables ->
  exists errors,
    validate_dependencies tables = (Ok errors, tables) /\
    run sql_content = Ok errors /\
    Dict.keys tables
    = first_occurrences (declared_names (PyStr.split "010" sql_content)) /\
    StronglySorted (not_after tables) errors /\
    (forall k d,
        nth_error (Dict.keys tables) k = Some d ->
        map target (filter (has_subject d) errors)
        = filter (reported tables (Z.of_nat k)) (deps_of tables d)) /\
    (forall pre raw span rest d,
        PyStr.split "010" sql_content = pre ++ raw :: span ++ rest ->
        declared raw = Some d ->
        existsb is_declaration span = false ->
        opens_with_declaration rest = true ->
        existsb (declares d) rest = false ->
        deps_of tables d = span_dependencies d span /\
        forall k,
          nth_error (Dict.keys tables) k = Some d ->
          map target (filter (has_subject d) errors)
          = filter (reported tables (Z.of_nat k))
                   (span_dependencies d span)) /\
    (forall n, validate_times n tables = (Ok (repeat errors n), tables)) /\
    (forall n, run_times n sql_content = repeat (Ok errors) n).
Proof.
  intros Hext. destruct (extract_wf _ _ Hext) as (cur & Hloop & W).
  pose proof (wf_keys _ W) as ND. cbn [fst] in ND.
  exists (violations tables).
  assert (Hrun : run sql_content = Ok (violations tables)).
  { unfold run. now rewrite Hext, validate_dependencies_spec. }
  assert (Hsub : forall k d,
             nth_error (Dict.keys tables) k = Some d ->
             map target (filter (has_subject d) (violations tables))
             = filter (reported tables (Z.of_nat k)) (deps_of tables d)).
  { intros k d Hk. unfold violations.
    rewrite (filter_subject_from tables 0 _ k d ND Hk).
    apply map_target_checks. }
  split; [|split; [|split; [|split; [|split; [|split; [|split]]]]]].
  - apply validate_dependencies_spec.
  - exact Hrun.
  - pose proof (loop_keys _ _ _ _ wf_initial Hloop) as Hk.
    cbn [fst] in Hk. change (Dict.keys []) with (@nil string) in Hk.
    cbn [app] in Hk. rewrite Hk. apply filter_all. reflexivity.
  - exact (proj1 (violations_from_sorted tables _ [] 0 ND eq_refl)).
  - exact Hsub.
  - intros pre raw span rest d Hsplit D Hspan Hopen Hrest.
    assert (deps_of tables d = span_dependencies d span) as Hd.
    { pose proof Hloop as Hloop'. rewrite Hsplit in Hloop' at 2.
      destruct (extract_loop_span _ _ _ _ _ _ _ D Hspan Hopen Hrest Hloop')
        as (info & Hg & Hdeps).
      cbn [fst] in Hg. unfold deps_of. now rewrite Hg. }
    split; [exact Hd|].
    intros k Hk. rewrite <- Hd. exact (Hsub k d Hk).
  - intros n. apply validate_times_spec.
  - intros n. induction n as [|n IH]; simpl; [reflexivity|].
    now rewrite IH, Hrun.
Qed.

Lemma violations_in_document_order_witness :
  let tables := [("shipments", mk_info ["orders"; "carriers"] 0)] in
  extract_table_definitions doc_two_targets = Ok tables /\
  exists errors,
    validate_dependencies tables = (Ok errors, tables) /\
    run doc_two_targets = Ok errors /\
    Dict.keys tables
    = first_occurrences
        (declared_names (PyStr.split "010" doc_two_targets)) /\
    StronglySorted (not_after tables) errors /\
    (forall k d,
        nth_error (Dict.keys tables) k = Some d ->
        map target (filter (has_subject d) errors)
        = filter (reported tables (Z.of_nat k)) (deps_of tables d)) /\
    (forall pre raw span rest d,
        PyStr.split "010" doc_two_targets = pre ++ raw :: span ++ rest ->
        declared raw = Some d ->
        existsb is_declaration span = false ->
        opens_with_declaration rest = true ->
        existsb (declares d) rest = false ->
        deps_of tables d = span_dependencies d span /\
        forall k,
          nth_error (Dict.keys tables) k = Some d ->
          map target (filter (has_subject d) errors)
          = filter (reported tables (Z.of_nat k))
                   (span_dependencies d span)) /\
    (forall n, validate_times n tables = (Ok (repeat errors n), tables)) /\
    (forall n, run_times n doc_two_targets = repeat (Ok errors) n).
Proof.
  intros tables.
  refine (conj _ (violations_in_document_order doc_two_targets tables _));
    vm_compute; reflexivity.
Defined.

Example two_targets_in_line_order :
  run doc_two_targets
  = Ok [UndeclaredReference "shipments" "orders";
        UndeclaredReference "shipments" "carriers"] /\
  span_dependencies "shipments"
    ["    FOREIGN KEY (order_id) REFERENCES orders(id),";
     "    FOREIGN KEY (carrier_id) REFERENCES carriers(id)";
     ");"]
  = ["orders"; "carriers"].
Proof. vm_compute. split; reflexivity. Qed.

(** * Further properties of the validator *)

Lemma violations_nil_iff_ordered (tables : Dict.t) :
  fst (validate_dependencies tables) = Ok []
  <-> forall i d info r,
        nth_error (Dict.keys tables) i = Some d ->
        Dict.get d tables = Some info ->
        In r (dependencies info) ->
        exists j, list_index r (Dict.keys tables) = Some j /\ j <= i.
Proof.
  rewrite validate_dependencies_spec. cbn [fst]. split.
  - intros [= Hnil] i d info r Hi Hg Hr.
    destruct (Dict.mem r tables) eqn:Hm.
    + apply DictFacts.mem_keys in Hm.
      destruct (list_index_In _ _ Hm) as [j Hj]. exists j.
      split; [exact Hj|].
      destruct (Nat.le_gt_cases j i) as [Hle|Hgt]; [exact Hle|].
      exfalso.
      assert (In (ForwardReference d (Z.of_nat i + 1) r (Z.of_nat j + 1))
                 (violations tables)) as Hin.
      { apply (violations_intro _ i d r info); auto.
        rewrite (check_mem_true _ _ _ _ _ Hj).
        destruct (Z.gtb_spec (Z.of_nat j) (Z.of_nat i)); [now left|lia]. }
      rewrite Hnil in Hin. contradiction.
    + exfalso.
      assert (In (UndeclaredReference d r) (violations tables)) as Hin.
      { apply (violations_intro _ i d r info); auto.
        rewrite check_mem_false by exact Hm. now left. }
      rewrite Hnil in Hin. contradiction.
  - intros H. f_equal.
    destruct (violations tables) as [|v vs] eqn:E; [reflexivity|].
    exfalso.
    assert (In v (violations tables)) as Hv by (rewrite E; now left).
    apply violations_from_In in Hv.
    destruct Hv as (k & Hk & Hd & Hc). unfold deps_of in Hd.
    destruct (Dict.get (subject v) tables) as [info|] eqn:G;
      [|contradiction].
    destruct (H k _ info _ Hk G Hd) as (j & Hj & Hle).
    rewrite Z.add_0_l, (check_mem_true _ _ _ _ _ Hj) in Hc.
    destruct (Z.gtb_spec (Z.of_nat j) (Z.of_nat k)); [lia|contradiction].
Qed.

(** X1. The validator reports nothing exactly when every recorded
    dependency of every table is a key that stands at the place of the
    table or before it. *)
Theorem validation_passes_iff_ordered (tables : Dict.t) :
  fst (validate_dependencies tables) = Ok []
  <-> forall i d info r,
        nth_error (Dict.keys tables) i = Some d ->
        Dict.get d tables = Some info ->
        In r (dependencies info) ->
        exists j, list_index r (Dict.keys tables) = Some j /\ j <= i.
Proof.
  exact (violations_nil_iff_ordered tables).
Qed.

(** X2. The two numbers of a forward-reference message are the places,
    counted from 1, of the two tables among the keys: the first is where
    the subject stands, the second is the first place of the target, and
    the first is smaller. *)
Theorem forward_reference_positions (tables : Dict.t)
        (errors : list violation) (d r : string) (p q : Z) :
  fst (validate_dependencies tables) = Ok errors ->
  In (ForwardReference d p r q) errors ->
  exists i j,
    p = (Z.of_nat i + 1)%Z /\ q = (Z.of_nat j + 1)%Z /\
    nth_error (Dict.keys tables) i = Some d /\
    list_index r (Dict.keys tables) = Some j /\
    i < j < List.length (Dict.keys tables).
Proof.
  rewrite validate_dependencies_spec. cbn [fst]. intros [= <-] Hv.
  apply violations_from_In in Hv.
  destruct Hv as (k & Hk & _ & Hc). cbn [subject target] in *.
  rewrite Z.add_0_l in Hc. unfold check in Hc.
  destruct (negb (Dict.mem r tables)).
  { destruct Hc as [Hc|[]]. discriminate Hc. }
  destruct (list_index r (Dict.keys tables)) as [j|] eqn:Hj;
    [|contradiction].
  destruct (Z.gtb_spec (Z.of_nat j) (Z.of_nat k)); [|contradiction].
  destruct Hc as [[= <- <-]|[]]. exists k, j.
  repeat split; auto; try lia.
  apply list_index_Some in Hj as [Hn _].
  apply nth_error_Some. congruence.
Qed.

Lemma forward_reference_positions_witness :
  let tables := [("employees", mk_info ["roles"] 0);
                 ("roles", mk_info [] 4)] in
  exists i j,
    1%Z = (Z.of_nat i + 1)%Z /\ 2%Z = (Z.of_nat j + 1)%Z /\
    nth_error (Dict.keys tables) i = Some "employees" /\
    list_index "roles" (Dict.keys tables) = Some j /\
    i < j < List.length (Dict.keys tables).
Proof.
  intros tables.
  apply (forward_reference_positions tables
           [ForwardReference "employees" 1 "roles" 2]
           "employees" "roles" 1 2).
  - reflexivity.
  - simpl. auto.
Defined.

Lemma length_check (tables : Dict.t) (i : Z) (d r : string) :
  List.length (check tables i d r) <= 1.
Proof.
  unfold check. destruct (negb (Dict.mem r tables)); simpl; [lia|].
  destruct (list_index r (Dict.keys tables)); simpl; [|lia].
  destruct (_ >? _)%Z; simpl; lia.
Qed.

Lemma length_checks (tables : Dict.t) (i : Z) (d : string)
      (deps : list string) :
  List.length (flat_map (check tables i d) deps) <= List.length deps.
Proof.
  induction deps as [|r deps IH]; simpl; [lia|].
  rewrite length_app. pose proof (length_check tables i d r). lia.
Qed.

Lemma length_violations_from (tables : Dict.t) (i : Z)
      (names : list string) :
  List.length (violations_from tables i names)
  <= List.length (flat_map (deps_of tables) names).
Proof.
  revert i; induction names as [|n names IH]; intros i; simpl; [lia|].
  rewrite !length_app. specialize (IH (i + 1)%Z).
  pose proof (length_checks tables i n (deps_of tables n)). lia.
Qed.

(** X3. The validator reports at most one violation for each recorded
    dependency: the list it returns is never longer than the dependency
    lists of the tables taken together. *)
Theorem violations_bounded_by_dependencies (tables : Dict.t) :
  exists errors,
    validate_dependencies tables = (Ok errors, tables) /\
    List.length errors <= List.length (all_dependencies tables).
Proof.
  exists (violations tables). split; [apply validate_dependencies_spec|].
  apply length_violations_from.
Qed.

(** X4. The validator does not look at [line_num]: two dicts with the same
    names and the same dependency lists get the same violations. *)
Theorem validate_ignores_line_num (t1 t2 : Dict.t) :
  shape t1 = shape t2 ->
  fst (validate_dependencies t1) = fst (validate_dependencies t2).
Proof.
  intros Hs. rewrite !validate_dependencies_spec. cbn [fst].
  now rewrite (violations_shape _ _ Hs).
Qed.

Lemma validate_ignores_line_num_witness :
  fst (validate_dependencies [("employees", mk_info ["roles"] 0);
                              ("roles", mk_info [] 4)])
  = fst (validate_dependencies [("employees", mk_info ["roles"] 7);
                                ("roles", mk_info [] 9)]).
Proof.
  apply (validate_ignores_line_num
           [("employees", mk_info ["roles"] 0); ("roles", mk_info [] 4)]
           [("employees", mk_info ["roles"] 7); ("roles", mk_info [] 9)]).
  reflexivity.
Defined.

(** X5. When the validator is about to look up the place of a dependency,
    the dependency is a key, so [table_order.index] finds it: the lookup
    returns a place below [len(table_order)], never the fallback [-1],
    and raises nothing. *)
Theorem dependency_index_is_a_place (tables : Dict.t) (dependency : string) :
  Dict.mem dependency tables = true ->
  exists j,
    index_or_minus_one dependency (Dict.keys tables) tables
    = (Ok (Z.of_nat j), tables) /\
    nth_error (Dict.keys tables) j = Some dependency /\
    j < List.length (Dict.keys tables).
Proof.
  intros H. destruct (index_or_minus_one_keys tables dependency H)
    as (j & Hj & Hidx).
  exists j. split; [exact Hidx|].
  apply list_index_Some in Hj as [Hn _]. split; [exact Hn|].
  apply nth_error_Some. congruence.
Qed.

Lemma dependency_index_is_a_place_witness :
  let tables := [("employees", mk_info ["roles"] 0);
                 ("roles", mk_info [] 4)] in
  exists j,
    index_or_minus_one "roles" (Dict.keys tables) tables
    = (Ok (Z.of_nat j), tables) /\
    nth_error (Dict.keys tables) j = Some "roles" /\
    j < List.length (Dict.keys tables).
Proof.
  intros tables. apply (dependency_index_is_a_place tables "roles").
  reflexivity.
Defined.

(** * Further properties of the extractor *)

Lemma loop_ok_findable (lines todo : list string) (st st' : extract_state) :
  extract_loop lines todo st = Ok st' ->
  forall raw, In raw todo -> is_declaration raw = true ->
              In (PyStr.strip raw) lines.
Proof.
  revert st; induction todo as [|x todo IH]; intros st; simpl;
    [intros _ raw []|].
  destruct (extract_step lines st x) as [st1|e] eqn:E; [|discriminate].
  intros Hloop raw [<-|Hin] Hd; [|exact (IH _ Hloop raw Hin Hd)].
  unfold is_declaration in Hd.
  destruct (declared x) as [name|] eqn:D; [|discriminate].
  destruct st as [tables cur].
  rewrite (step_declaration _ _ _ _ _ D) in E.
  destruct (list_index (PyStr.strip x) lines) as [idx|] eqn:Hi;
    [|discriminate].
  apply list_index_Some in Hi as [Hn _]. exact (nth_error_In _ _ Hn).
Qed.

Lemma declarations_findable_spec (lines : list string) :
  declarations_findable lines = true
  <-> forall raw, In raw lines -> is_declaration raw = true ->
                  In (PyStr.strip raw) lines.
Proof.
  unfold declarations_findable. rewrite forallb_forall. split.
  - intros H raw Hin Hd. specialize (H raw Hin). rewrite Hd in H.
    now apply list_mem_In.
  - intros H raw Hin. destruct (is_declaration raw) eqn:Hd; [|reflexivity].
    simpl. apply list_mem_In. auto.
Qed.

Lemma extract_returns_iff_findable_aux (sql_content : string) :
  ((exists tables, extract_table_definitions sql_content = Ok tables)
   <-> declarations_findable (PyStr.split "010" sql_content) = true) /\
  (forall e, extract_table_definitions sql_content = Raise e ->
             e = ValueError).
Proof.
  split; [split|].
  - intros [tables Hext]. destruct (extract_wf _ _ Hext) as (cur & Hl & _).
    apply declarations_findable_spec. exact (loop_ok_findable _ _ _ _ Hl).
  - intros H. unfold extract_table_definitions.
    destruct (extract_loop_returns (PyStr.split "010" sql_content)
                (PyStr.split "010" sql_content) ([], None) wf_initial)
      as [[t c] ->]; [|eauto].
    now apply declarations_findable_spec.
  - intros e. unfold extract_table_definitions.
    generalize (PyStr.split "010" sql_content) at 2 as todo.
    generalize (@wf_initial).
    generalize (([], None) : extract_state) as st.
    intros st W todo; revert st W.
    induction todo as [|raw todo IH]; intros [t c] W; cbn [extract_loop];
      [discriminate|].
    destruct (extract_step _ (t, c) raw) as [st1|e1] eqn:E.
    + apply IH. exact (step_wf _ _ _ _ W E).
    + intros [= <-]. exact (proj1 (step_raises _ _ _ _ W E)).
Qed.

(** X6. The extractor returns a dict exactly when the stripped text of
    each CREATE TABLE line is itself a line of the document; if it does
    not return, what it raises is [ValueError]. *)
Theorem extract_returns_iff_findable (sql_content : string) :
  ((exists tables, extract_table_definitions sql_content = Ok tables)
   <-> declarations_findable (PyStr.split "010" sql_content) = true) /\
  (forall e, extract_table_definitions sql_content = Raise e ->
             e = ValueError).
Proof.
  exact (extract_returns_iff_findable_aux sql_content).
Qed.

(** X7. A document whose CREATE TABLE lines carry no leading or trailing
    whitespace is processed to the end: the extractor returns a dict and
    the whole run returns a list of violations. *)
Theorem run_returns_without_padding (sql_content : string) :
  forallb (fun raw =>
             implb (is_declaration raw) (String.eqb (PyStr.strip raw) raw))
          (PyStr.split "010" sql_content) = true ->
  exists tables errors,
    extract_table_definitions sql_content = Ok tables /\
    run sql_content = Ok errors.
Proof.
  intros H. rewrite forallb_forall in H.
  destruct (extract_returns sql_content) as [tables Ht].
  - intros raw Hin Hd. specialize (H raw Hin). rewrite Hd in H.
    now apply String.eqb_eq.
  - exists tables, (violations tables). split; [exact Ht|].
    unfold run. now rewrite Ht, validate_dependencies_spec.
Qed.

Lemma run_returns_without_padding_witness :
  exists tables errors,
    extract_table_definitions doc_employees_then_roles = Ok tables /\
    run doc_employees_then_roles = Ok errors.
Proof.
  apply (run_returns_without_padding doc_employees_then_roles).
  vm_compute. reflexivity.
Defined.

Lemma first_occurrences_In (x : string) (l : list string) :
  In x (first_occurrences l) <-> In x l.
Proof.
  induction l as [|n l IH]; simpl; [tauto|].
  rewrite filter_In, IH. split.
  - intros [H|[H _]]; auto.
  - intros [H|H]; [now left|].
    destruct (String.eqb x n) eqn:E.
    + apply String.eqb_eq in E. now left.
    + right. now split.
Qed.

Lemma first_occurrences_length (l : list string) :
  List.length (first_occurrences l) <= List.length l.
Proof.
  induction l as [|n l IH]; simpl; [lia|].
  pose proof (filter_length_le (fun m => negb (String.eqb m n))
                               (first_occurrences l)). lia.
Qed.

Lemma declared_names_In (name : string) (lines : list string) :
  In name (declared_names lines)
  <-> exists raw, In raw lines /\ declared raw = Some name.
Proof.
  unfold declared_names. rewrite in_flat_map. split.
  - intros (raw & Hin & H). exists raw. split; [exact Hin|].
    destruct (declared raw); [|contradiction].
    destruct H as [->|[]]. reflexivity.
  - intros (raw & Hin & H). exists raw. split; [exact Hin|].
    rewrite H. now left.
Qed.

Lemma extract_keys_declared (sql_content : string) (tables : Dict.t) :
  extract_table_definitions sql_content = Ok tables ->
  (forall name,
      Dict.mem name tables = true
      <-> exists raw, In raw (PyStr.split "010" sql_content) /\
                      declared raw = Some name) /\
  List.length tables
  <= List.length (filter is_declaration (PyStr.split "010" sql_content)).
Proof.
  intros Hext. destruct (extract_wf _ _ Hext) as (cur & Hloop & W).
  pose proof (loop_keys _ _ _ _ wf_initial Hloop) as Hk.
  cbn [fst] in Hk. change (Dict.keys []) with (@nil string) in Hk.
  cbn [app] in Hk. rewrite filter_all in Hk by reflexivity.
  split.
  - intros name. rewrite DictFacts.mem_keys, Hk, first_occurrences_In.
    apply declared_names_In.
  - replace (List.length tables) with (List.length (Dict.keys tables))
      by apply length_map.
    rewrite Hk.
    etransitivity; [apply first_occurrences_length|].
    generalize (PyStr.split "010" sql_content) as lines.
    induction lines as [|raw lines IH]; simpl; [lia|].
    unfold is_declaration at 1. destruct (declared raw); simpl; lia.
Qed.

(** X8. The keys of the extracted dict are the declared names: a name is a
    key exactly when some line of the document declares it, and there are
    no more keys than CREATE TABLE lines. *)
Theorem keys_are_declared_names (sql_content : string) (tables : Dict.t) :
  extract_table_definitions sql_content = Ok tables ->
  (forall name,
      Dict.mem name tables = true
      <-> exists raw, In raw (PyStr.split "010" sql_content) /\
                      declared raw = Some name) /\
  List.length tables
  <= List.length (filter is_declaration (PyStr.split "010" sql_content)).
Proof.
  exact (extract_keys_declared sql_content tables).
Qed.

Lemma keys_are_declared_names_witness :
  let tables := [("products", mk_info [] 0)] in
  (forall name,
      Dict.mem name tables = true
      <-> exists raw, In raw (PyStr.split "010" doc_products_twice) /\
                      declared raw = Some name) /\
  List.length tables
  <= List.length (filter is_declaration
                         (PyStr.split "010" doc_products_twice)).
Proof.
  intros tables.
  apply (keys_are_declared_names doc_products_twice tables).
  vm_compute. reflexivity.
Defined.

(** Where an entry of the dict comes from, one line later: it was there,
    or the line declared it, or the line added a dependency to it. *)
Lemma step_entries (lines : list string) (tables tables' : Dict.t)
      (cur cur' : option string) (raw k : string) (v : table_info) :
  wf_state (tables, cur) ->
  extract_step lines (tables, cur) raw = Ok (tables', cur') ->
  In (k, v) tables' ->
  In (k, v) tables
  \/ (exists idx,
         declared raw = Some k /\
         list_index (PyStr.strip raw) lines = Some idx /\
         v = mk_info [] (count_nonblank lines idx))
  \/ (exists info r,
         declared raw = None /\ referenced raw = Some r /\ r <> k /\
         cur = Some k /\ Dict.get k tables = Some info /\
         v = mk_info (dependencies info ++ [r]) (line_num info)).
Proof.
  intros W E Hin. destruct (declared raw) as [name|] eqn:D.
  - rewrite (step_declaration _ _ _ _ _ D) in E.
    destruct (list_index (PyStr.strip raw) lines) as [idx|] eqn:Hi;
      [|discriminate].
    injection E as <- <-. apply DictFacts.In_set in Hin.
    destruct Hin as [[= -> ->]|Hin]; [|now left].
    right. left. exists idx. auto.
  - destruct cur as [c|].
    + destruct (wf_current _ W c eq_refl) as [Ht [info Hg]].
      cbn [fst] in Hg. rewrite (step_in_span _ _ _ _ _ D Ht Hg) in E.
      injection E as <- <-.
      destruct (referenced raw) as [r|] eqn:Hr; [|now left].
      destruct (String.eqb r c) eqn:Hrc; [now left|].
      apply String.eqb_neq in Hrc. apply DictFacts.In_set in Hin.
      destruct Hin as [[= -> ->]|Hin]; [|now left].
      right. right. exists info, r. auto 10.
    + rewrite (step_before_first _ _ _ D) in E. injection E as <- <-.
      now left.
Qed.

(** A property of the entries that each line keeps holds at the end. *)
Lemma loop_entries (P : string -> table_info -> Prop)
      (lines : list string) :
  (forall raw idx k,
      In raw lines -> declared raw = Some k ->
      list_index (PyStr.strip raw) lines = Some idx ->
      P k (mk_info [] (count_nonblank lines idx))) ->
  (forall raw r k info,
      In raw lines -> declared raw = None -> referenced raw = Some r ->
      r <> k -> P k info ->
      P k (mk_info (dependencies info ++ [r]) (line_num info))) ->
  forall todo st st',
    incl todo lines -> wf_state st ->
    (forall k v, In (k, v) (fst st) -> P k v) ->
    extract_loop lines todo st = Ok st' ->
    forall k v, In (k, v) (fst st') -> P k v.
Proof.
  intros Hdecl Hdep todo; induction todo as [|raw todo IH];
    intros st st' Hincl W HP; simpl.
  - now intros [= <-].
  - destruct (extract_step lines st raw) as [st1|e] eqn:E; [|discriminate].
    apply IH.
    + intros x Hx. apply Hincl. now right.
    + exact (step_wf _ _ _ _ W E).
    + destruct st as [t c], st1 as [t1 c1]. cbn [fst] in *.
      intros k v Hin.
      assert (In raw lines) as Hraw by (apply Hincl; now left).
      destruct (step_entries _ _ _ _ _ _ _ _ W E Hin)
        as [H|[(idx & D & Hi & ->)|(info & r & D & Hr & Hne & _ & Hg & ->)]].
      * auto.
      * eauto.
      * apply (Hdep raw); auto. apply HP.
        now apply DictFacts.get_Some_In.
Qed.

Lemma extract_entries (P : string -> table_info -> Prop)
      (sql_content : string) (tables : Dict.t) :
  let lines := PyStr.split "010" sql_content in
  (forall raw idx k,
      In raw lines -> declared raw = Some k ->
      list_index (PyStr.strip raw) lines = Some idx ->
      P k (mk_info [] (count_nonblank lines idx))) ->
  (forall raw r k info,
      In raw lines -> declared raw = None -> referenced raw = Some r ->
      r <> k -> P k info ->
      P k (mk_info (dependencies info ++ [r]) (line_num info))) ->
  extract_table_definitions sql_content = Ok tables ->
  forall k v, Dict.get k tables = Some v -> P k v.
Proof.
  intros lines Hdecl Hdep Hext k v Hg.
  destruct (extract_wf _ _ Hext) as (cur & Hloop & _).
  apply (loop_entries P lines Hdecl Hdep lines ([], None) (tables, cur)
                      (incl_refl _) wf_initial); auto.
  - intros ? ? [].
  - now apply DictFacts.get_Some_In.
Qed.

Lemma extract_dependency_line (sql_content : string)
        (tables : Dict.t) (name r : string) (info : table_info) :
  extract_table_definitions sql_content = Ok tables ->
  Dict.get name tables = Some info ->
  In r (dependencies info) ->
  exists raw,
    In raw (PyStr.split "010" sql_content) /\
    declared raw = None /\ referenced raw = Some r.
Proof.
  intros Hext Hg Hr.
  apply (extract_entries
           (fun _ v => forall r, In r (dependencies v) ->
              exists raw, In raw (PyStr.split "010" sql_content) /\
                          declared raw = None /\ referenced raw = Some r)
           sql_content tables) with (k := name) (v := info); auto.
  - intros raw idx k _ _ _ x [].
  - intros raw x k i Hin D Hx _ IH y Hy. cbn [dependencies] in Hy.
    apply in_app_or in Hy as [Hy|[<-|[]]]; eauto.
Qed.

(** X9. Every dependency the extractor records was read on a line of the
    document that is not a CREATE TABLE line and whose FOREIGN KEY clause
    names it: nothing is recorded that the document does not say. *)
Theorem dependencies_come_from_lines (sql_content : string)
        (tables : Dict.t) (name r : string) (info : table_info) :
  extract_table_definitions sql_content = Ok tables ->
  Dict.get name tables = Some info ->
  In r (dependencies info) ->
  exists raw,
    In raw (PyStr.split "010" sql_content) /\
    declared raw = None /\ referenced raw = Some r.
Proof.
  exact (extract_dependency_line sql_content tables name r info).
Qed.

Lemma dependencies_come_from_lines_witness :
  exists raw,
    In raw (PyStr.split "010" doc_orders_without_customers) /\
    declared raw = None /\ referenced raw = Some "customers".
Proof.
  apply (dependencies_come_from_lines doc_orders_without_customers
           [("orders", mk_info ["customers"] 0)] "orders" "customers"
           (mk_info ["customers"] 0)).
  - vm_compute. reflexivity.
  - reflexivity.
  - simpl. auto.
Defined.

(** ** Stripping *)

Lemma rstrip_idempotent (s : string) :
  PyStr.rstrip (PyStr.rstrip s) = PyStr.rstrip s.
Proof.
  induction s as [|c s IH]; simpl; [reflexivity|].
  destruct (PyStr.is_space c && (PyStr.rstrip s =? "")%string) eqn:E;
    [reflexivity|].
  simpl. now rewrite IH, E.
Qed.

Lemma lstrip_head (s : string) :
  PyStr.lstrip s = EmptyString
  \/ exists c t, PyStr.lstrip s = String c t /\ PyStr.is_space c = false.
Proof.
  induction s as [|c s IH]; simpl; [now left|].
  destruct (PyStr.is_space c) eqn:E; [exact IH|].
  right. exists c, s. auto.
Qed.

Lemma strip_idempotent (s : string) :
  PyStr.strip (PyStr.strip s) = PyStr.strip s.
Proof.
  unfold PyStr.strip.
  destruct (lstrip_head s) as [->|(c & t & -> & Hc)]; [reflexivity|].
  assert (PyStr.rstrip (String c t) = String c (PyStr.rstrip t)) as ->.
  { simpl. now rewrite Hc. }
  cbn [PyStr.lstrip]. rewrite Hc.
  change (String c (PyStr.rstrip t)) with (String c (PyStr.rstrip t)).
  simpl. now rewrite Hc, rstrip_idempotent.
Qed.

Lemma declaration_nonblank (raw name : string) :
  declared raw = Some name -> nonblank (PyStr.strip raw) = true.
Proof.
  unfold declared, nonblank. rewrite strip_idempotent.
  destruct (PyStr.strip raw); [discriminate|reflexivity].
Qed.

Lemma count_before (f : string -> bool) (l : list string) (idx : nat)
      (x : string) :
  nth_error l idx = Some x -> f x = true ->
  List.length (filter f (firstn idx l)) < List.length (filter f l).
Proof.
  revert idx; induction l as [|y l IH]; intros [|idx]; simpl;
    try discriminate.
  - intros [= ->] ->. simpl. lia.
  - intros Hn Hx. specialize (IH idx Hn Hx).
    destruct (f y); simpl; lia.
Qed.

(** X10. The [line_num] of an entry is the number of non-blank lines that
    stand before the first line equal to the stripped text of a line that
    declares the table; it is smaller than the number of non-blank lines
    of the document, and no FOREIGN KEY line changes it. *)
Theorem line_num_counts_nonblank_lines (sql_content : string)
        (tables : Dict.t) (name : string) (info : table_info) :
  extract_table_definitions sql_content = Ok tables ->
  Dict.get name tables = Some info ->
  let lines := PyStr.split "010" sql_content in
  (exists raw idx,
      In raw lines /\ declared raw = Some name /\
      list_index (PyStr.strip raw) lines = Some idx /\
      line_num info = List.length (filter nonblank (firstn idx lines))) /\
  line_num info < List.length (filter nonblank lines).
Proof.
  intros Hext Hg lines.
  assert (exists raw idx,
             In raw lines /\ declared raw = Some name /\
             list_index (PyStr.strip raw) lines = Some idx /\
             line_num info = List.length (filter nonblank (firstn idx lines)))
    as H.
  { apply (extract_entries
             (fun k v => exists raw idx,
                  In raw lines /\ declared raw = Some k /\
                  list_index (PyStr.strip raw) lines = Some idx /\
                  line_num v
                  = List.length (filter nonblank (firstn idx lines)))
             sql_content tables).
    - intros raw idx k Hin D Hi. exists raw, idx. auto.
    - intros raw r k i _ _ _ _ IH. exact IH.
    - exact Hext.
    - exact Hg. }
  split; [exact H|].
  destruct H as (raw & idx & _ & D & Hi & ->).
  apply list_index_Some in Hi as [Hn _].
  exact (count_before nonblank lines idx _ Hn (declaration_nonblank _ _ D)).
Qed.

Lemma line_num_counts_nonblank_lines_witness :
  let lines := PyStr.split "010" doc_employees_then_roles in
  (exists raw idx,
      In raw lines /\ declared raw = Some "roles" /\
      list_index (PyStr.strip raw) lines = Some idx /\
      4 = List.length (filter nonblank (firstn idx lines))) /\
  4 < List.length (filter nonblank lines).
Proof.
  apply (line_num_counts_nonblank_lines doc_employees_then_roles
           [("employees", mk_info ["roles"] 0); ("roles", mk_info [] 4)]
           "roles" (mk_info [] 4)).
  - vm_compute. reflexivity.
  - reflexivity.
Defined.

(** * What the two patterns match *)

Lemma string_append_assoc (a b c : string) :
  ((a ++ b) ++ c)%string = (a ++ (b ++ c))%string.
Proof.
  induction a as [|x a IH]; simpl; [reflexivity|]. now rewrite IH.
Qed.

Lemma string_length_append (a b : string) :
  String.length (a ++ b)%string = String.length a + String.length b.
Proof.
  induction a as [|x a IH]; simpl; [reflexivity|]. now rewrite IH.
Qed.

Lemma substring_0_append (a b : string) :
  substring 0 (String.length a) (a ++ b)%string = a.
Proof.
  induction a as [|x a IH]; simpl; [now destruct b|]. now rewrite IH.
Qed.

Lemma captured_prefix (a b : string) :
  substring 0 (String.length (a ++ b)%string - String.length b)
            (a ++ b)%string = a.
Proof.
  rewrite string_length_append, Nat.add_sub. apply substring_0_append.
Qed.

Lemma exec_Str_inv {R : Type} (lit : string) (r : Re.regex)
      (s cap : string) (k : string -> string -> option R) (g : R) :
  Re.exec true (Re.Str lit r) s cap k = Some g ->
  exists kw s1,
    s = (kw ++ s1)%string /\ ci_match lit kw = true /\
    Re.exec true r s1 cap k = Some g.
Proof.
  revert s; induction lit as [|c lit IH]; intros s; cbn [Re.Str Re.exec].
  - intros H. exists EmptyString, s. auto.
  - destruct s as [|a s]; [discriminate|].
    destruct (Re.chr_eq true c a) eqn:E; [|discriminate].
    intros H. destruct (IH _ H) as (kw & s1 & -> & Hkw & Hex).
    exists (String a kw), s1. cbn [String.append ci_match]. rewrite E.
    auto.
Qed.

Lemma exec_Str_intro {R : Type} (lit kw : string) (r : Re.regex)
      (s cap : string) (k : string -> string -> option R) :
  ci_match lit kw = true ->
  Re.exec true (Re.Str lit r) (kw ++ s)%string cap k
  = Re.exec true r s cap k.
Proof.
  revert kw; induction lit as [|c lit IH]; intros [|a kw];
    cbn [Re.Str Re.exec String.append ci_match];
    try discriminate; [reflexivity|].
  intros H. apply andb_prop in H as [-> H]. exact (IH _ H).
Qed.

Lemma exec_Plus_inv {R : Type} (ic : bool) (p : ascii -> bool)
      (s cap : string) (k : string -> string -> option R) (g : R) :
  Re.exec ic (Re.Plus p) s cap k = Some g ->
  exists name s2,
    s = (name ++ s2)%string /\ name <> EmptyString /\
    string_forall p name = true /\ k s2 cap = Some g.
Proof.
  simpl. induction s as [|a s IH]; [discriminate|].
  destruct (p a) eqn:Hp; [|discriminate].
  match goal with |- context [match ?x with _ => _ end] =>
    destruct x as [y|] eqn:E end.
  - intros H. destruct (IH H) as (name & s2 & -> & _ & Hall & Hk).
    exists (String a name), s2. simpl. rewrite Hp.
    repeat split; auto. discriminate.
  - intros H. exists (String a EmptyString), s. simpl. rewrite Hp.
    repeat split; auto. discriminate.
Qed.

(** When what follows never fails, [+] takes every character it can. *)
Lemma exec_Plus_greedy {R : Type} (ic : bool) (p : ascii -> bool)
      (s cap : string) (k : string -> string -> option R) (g : R) :
  (forall s' c', k s' c' <> None) ->
  Re.exec ic (Re.Plus p) s cap k = Some g ->
  exists name s2,
    s = (name ++ s2)%string /\ name <> EmptyString /\
    string_forall p name = true /\ stops p s2 = true /\
    k s2 cap = Some g.
Proof.
  intros Htot. simpl. induction s as [|a s IH]; [discriminate|].
  destruct (p a) eqn:Hp; [|discriminate].
  match goal with |- context [match ?x with _ => _ end] =>
    destruct x as [y|] eqn:E end.
  - intros H. destruct (IH H) as (name & s2 & -> & _ & Hall & Hst & Hk).
    exists (String a name), s2. simpl. rewrite Hp.
    repeat split; auto. discriminate.
  - intros H. exists (String a EmptyString), s. simpl. rewrite Hp.
    repeat split; auto; [discriminate|].
    destruct s as [|b s]; [reflexivity|]. simpl.
    destruct (p b) eqn:Hb; [|reflexivity]. exfalso.
    destruct (_ s) as [z|] in E; [discriminate|].
    exact (Htot _ _ E).
Qed.

Lemma exec_Plus_intro {R : Type} (ic : bool) (p : ascii -> bool)
      (name rest cap : string) (k : string -> string -> option R) (x : R) :
  name <> EmptyString -> string_forall p name = true ->
  stops p rest = true -> k rest cap = Some x ->
  Re.exec ic (Re.Plus p) (name ++ rest)%string cap k = Some x.
Proof.
  intros Hne Hall Hst Hk. simpl.
  induction name as [|a name IH]; [congruence|].
  simpl in Hall. apply andb_prop in Hall as [Hp Hall].
  cbn [String.append]. rewrite Hp.
  destruct name as [|b name].
  - cbn [String.append].
    destruct rest as [|c rest]; [exact Hk|].
    simpl in Hst. apply negb_true_iff in Hst. now rewrite Hst.
  - rewrite IH; [reflexivity|discriminate|exact Hall].
Qed.

Lemma search_inv (ic : bool) (r : Re.regex) (s g : string) :
  Re.search ic r s = Some g ->
  exists pre s1,
    s = (pre ++ s1)%string /\
    Re.exec ic r s1 EmptyString (fun _ cap => Some cap) = Some g.
Proof.
  induction s as [|a s IH]; cbn [Re.search];
    match goal with |- context [Re.exec ?i ?r ?x ?c ?k] =>
      destruct (Re.exec i r x c k) as [y|] eqn:E end.
  - intros [= <-]. exists EmptyString, EmptyString. auto.
  - discriminate.
  - intros [= <-]. exists EmptyString, (String a s). auto.
  - intros H. destruct (IH H) as (pre & s1 & -> & Hex).
    exists (String a pre), s1. auto.
Qed.

Lemma search_here (ic : bool) (r : Re.regex) (s g : string) :
  Re.exec ic r s EmptyString (fun _ cap => Some cap) = Some g ->
  Re.search ic r s = Some g.
Proof.
  intros H. destruct s; cbn [Re.search]; now rewrite H.
Qed.

Lemma search_later (ic : bool) (r : Re.regex) (pre s g : string) :
  Re.search ic r s = Some g ->
  exists g', Re.search ic r (pre ++ s)%string = Some g'.
Proof.
  intros H. induction pre as [|a pre IH]; [eauto|].
  cbn [String.append Re.search].
  match goal with |- context [Re.exec ?i ?r ?x ?c ?k] =>
    destruct (Re.exec i r x c k) as [y|] end; eauto.
Qed.

Lemma create_match_inv (line name : string) :
  create_match line = Some name ->
  exists pre kw rest,
    line = (pre ++ kw ++ name ++ rest)%string /\
    ci_match "CREATE TABLE IF NOT EXISTS " kw = true /\
    name <> EmptyString /\
    string_forall PyStr.is_word name = true /\
    stops PyStr.is_word rest = true.
Proof.
  unfold create_match, create_table_pattern. intros H.
  apply search_inv in H as (pre & s1 & -> & H).
  apply exec_Str_inv in H as (kw & s2 & -> & Hkw & H).
  change (Re.exec true (Re.Plus PyStr.is_word) s2 EmptyString
            (fun s3 _ =>
               Some (substring 0 (String.length s2 - String.length s3) s2))
          = Some name) in H.
  apply exec_Plus_greedy in H; [|discriminate].
  destruct H as (n & rest & -> & Hne & Hall & Hst & H).
  rewrite captured_prefix in H. injection H as <-.
  exists pre, kw, rest. auto.
Qed.

(** X11. A line matches the CREATE TABLE pattern only if it holds the
    words CREATE TABLE IF NOT EXISTS, in any letter case and separated by
    single spaces, followed by a space and at least one word character;
    the name captured is the whole run of word characters found there. *)
Theorem create_match_sound (line name : string) :
  create_match line = Some name ->
  exists pre kw rest,
    line = (pre ++ kw ++ name ++ rest)%string /\
    ci_match "CREATE TABLE IF NOT EXISTS " kw = true /\
    name <> EmptyString /\
    string_forall PyStr.is_word name = true /\
    stops PyStr.is_word rest = true.
Proof.
  exact (create_match_inv line name).
Qed.

Lemma create_match_sound_witness :
  exists pre kw rest,
    "create table if not exists Roles_2 (" = (pre ++ kw ++ "Roles_2" ++ rest)%string /\
    ci_match "CREATE TABLE IF NOT EXISTS " kw = true /\
    "Roles_2" <> EmptyString /\
    string_forall PyStr.is_word "Roles_2" = true /\
    stops PyStr.is_word rest = true.
Proof.
  apply (create_match_sound "create table if not exists Roles_2 ("
                            "Roles_2").
  vm_compute. reflexivity.
Defined.

(** X12. A line that begins with CREATE TABLE IF NOT EXISTS in any letter
    case, then a name made of word characters, then nothing or a
    character that is not a word character, matches the pattern, and the
    name captured is that name in full and as written. *)
Theorem create_match_complete (kw name rest : string) :
  ci_match "CREATE TABLE IF NOT EXISTS " kw = true ->
  name <> EmptyString ->
  string_forall PyStr.is_word name = true ->
  stops PyStr.is_word rest = true ->
  create_match (kw ++ name ++ rest)%string = Some name.
Proof.
  intros Hkw Hne Hall Hst. unfold create_match, create_table_pattern.
  apply search_here. rewrite (exec_Str_intro _ _ _ _ _ _ Hkw).
  change (Re.exec true (Re.Plus PyStr.is_word) (name ++ rest)%string
            EmptyString
            (fun s3 _ =>
               Some (substring 0 (String.length (name ++ rest)%string
                                  - String.length s3)
                               (name ++ rest)%string))
          = Some name).
  apply exec_Plus_intro; auto. now rewrite captured_prefix.
Qed.

Lemma create_match_complete_witness :
  create_match ("Create Table If Not Exists " ++ "order_items" ++ " (")%string
  = Some "order_items".
Proof.
  apply (create_match_complete "Create Table If Not Exists "
                               "order_items" " (");
    try (vm_compute; reflexivity).
  discriminate.
Defined.

Lemma chr_eq_paren (c a : ascii) :
  (c = "("%char \/ c = ")"%char) -> Re.chr_eq true c a = true -> a = c.
Proof.
  intros Hc H.
  destruct a as [[] [] [] [] [] [] [] []];
    destruct Hc as [-> | ->]; vm_compute in H;
    first [reflexivity | discriminate H].
Qed.

Lemma fk_match_inv (line name : string) :
  fk_match line = Some name ->
  exists pre kw1 cols kw2 rest,
    line = (pre ++ kw1 ++ cols ++ kw2 ++ name ++ "(" ++ rest)%string /\
    ci_match "FOREIGN KEY (" kw1 = true /\
    cols <> EmptyString /\
    string_forall not_paren cols = true /\
    ci_match ") REFERENCES " kw2 = true /\
    name <> EmptyString /\
    string_forall PyStr.is_word name = true.
Proof.
  unfold fk_match, foreign_key_pattern. intros H.
  apply search_inv in H as (pre & s1 & -> & H).
  apply exec_Str_inv in H as (kw1 & s2 & -> & Hkw1 & H).
  cbn [Re.exec] in H. fold (@Re.exec true string) in H.
  change (Re.exec true (Re.Plus not_paren) s2 EmptyString
            (fun s3 cap3 =>
               Re.exec true
                       (Re.Str ") REFERENCES "
                          (Re.Cat (Re.Grp (Re.Plus PyStr.is_word))
                                  (Re.Chr "(")))
                       s3 cap3 (fun _ cap => Some cap))
          = Some name) in H.
  apply exec_Plus_inv in H as (cols & s3 & -> & Hcols & Hnp & H).
  apply exec_Str_inv in H as (kw2 & s4 & -> & Hkw2 & H).
  change (Re.exec true (Re.Plus PyStr.is_word) s4 EmptyString
            (fun s5 _ =>
               Re.exec true (Re.Chr "(") s5
                       (substring 0 (String.length s4 - String.length s5) s4)
                       (fun _ cap => Some cap))
          = Some name) in H.
  apply exec_Plus_inv in H as (n & s5 & -> & Hn & Hw & H).
  cbn [Re.exec] in H. destruct s5 as [|a rest]; [discriminate|].
  destruct (Re.chr_eq true "(" a) eqn:Ha; [|discriminate].
  apply chr_eq_paren in Ha; [subst a|now left].
  change (String "(" rest) with ("(" ++ rest)%string in H.
  rewrite captured_prefix in H. injection H as <-.
  exists pre, kw1, cols, kw2, rest. auto 10.
Qed.

(** X13. A line matches the FOREIGN KEY pattern only if it holds, in any
    letter case, FOREIGN KEY and a space, a parenthesis around at least
    one character none of which is a closing parenthesis, a space,
    REFERENCES and a space, then a name of word characters immediately
    followed by an opening parenthesis; that name is what is captured. *)
Theorem fk_match_sound (line name : string) :
  fk_match line = Some name ->
  exists pre kw1 cols kw2 rest,
    line = (pre ++ kw1 ++ cols ++ kw2 ++ name ++ "(" ++ rest)%string /\
    ci_match "FOREIGN KEY (" kw1 = true /\
    cols <> EmptyString /\
    string_forall not_paren cols = true /\
    ci_match ") REFERENCES " kw2 = true /\
    name <> EmptyString /\
    string_forall PyStr.is_word name = true.
Proof.
  exact (fk_match_inv line name).
Qed.

Lemma fk_match_sound_witness :
  exists pre kw1 cols kw2 rest,
    "CONSTRAINT fk foreign key (role_id) references roles(id)"
    = (pre ++ kw1 ++ cols ++ kw2 ++ "roles" ++ "(" ++ rest)%string /\
    ci_match "FOREIGN KEY (" kw1 = true /\
    cols <> EmptyString /\
    string_forall not_paren cols = true /\
    ci_match ") REFERENCES " kw2 = true /\
    "roles" <> EmptyString /\
    string_forall PyStr.is_word "roles" = true.
Proof.
  apply (fk_match_sound
           "CONSTRAINT fk foreign key (role_id) references roles(id)"
           "roles").
  vm_compute. reflexivity.
Defined.

Lemma ci_match_closing (lit kw : string) :
  ci_match (String ")" lit) kw = true -> stops not_paren kw = true.
Proof.
  destruct kw as [|a kw]; [discriminate|]. cbn [ci_match].
  intros H. apply andb_prop in H as [H _].
  apply chr_eq_paren in H; [subst a; reflexivity|now right].
Qed.

(** X14. A line that begins, in any letter case, with FOREIGN KEY, a
    parenthesised column list without a closing parenthesis inside, then
    REFERENCES and a name of word characters directly followed by an
    opening parenthesis, matches the pattern and gives that name; with
    any text in front the line still matches. *)
Theorem fk_match_complete (kw1 cols kw2 name rest : string) :
  ci_match "FOREIGN KEY (" kw1 = true ->
  cols <> EmptyString ->
  string_forall not_paren cols = true ->
  ci_match ") REFERENCES " kw2 = true ->
  name <> EmptyString ->
  string_forall PyStr.is_word name = true ->
  fk_match (kw1 ++ cols ++ kw2 ++ name ++ "(" ++ rest)%string = Some name /\
  forall pre,
    exists g,
      fk_match (pre ++ kw1 ++ cols ++ kw2 ++ name ++ "(" ++ rest)%string
      = Some g.
Proof.
  intros Hkw1 Hcols Hnp Hkw2 Hname Hw.
  assert (fk_match (kw1 ++ cols ++ kw2 ++ name ++ "(" ++ rest)%string
          = Some name) as Hm.
  { unfold fk_match, foreign_key_pattern. apply search_here.
    rewrite (exec_Str_intro _ _ _ _ _ _ Hkw1).
    change (Re.exec true (Re.Plus not_paren)
              (cols ++ kw2 ++ name ++ "(" ++ rest)%string EmptyString
              (fun s3 cap3 =>
                 Re.exec true
                         (Re.Str ") REFERENCES "
                            (Re.Cat (Re.Grp (Re.Plus PyStr.is_word))
                                    (Re.Chr "(")))
                         s3 cap3 (fun _ cap => Some cap))
            = Some name).
    apply exec_Plus_intro; auto.
    - destruct kw2 as [|a kw2]; [discriminate Hkw2|].
      apply ci_match_closing in Hkw2. exact Hkw2.
    - rewrite (exec_Str_intro _ _ _ _ _ _ Hkw2).
      change (Re.exec true (Re.Plus PyStr.is_word)
                (name ++ "(" ++ rest)%string EmptyString
                (fun s5 _ =>
                   Re.exec true (Re.Chr "(") s5
                           (substring 0
                              (String.length (name ++ "(" ++ rest)%string
                               - String.length s5)
                              (name ++ "(" ++ rest)%string)
                           (fun _ cap => Some cap))
              = Some name).
      apply exec_Plus_intro; auto.
      rewrite captured_prefix. reflexivity. }
  split; [exact Hm|].
  intros pre. unfold fk_match in *. exact (search_later _ _ pre _ _ Hm).
Qed.

Lemma fk_match_complete_witness :
  fk_match ("Foreign Key (" ++ "role_id, dept_id" ++ ") References "
            ++ "roles" ++ "(" ++ "id) ON DELETE CASCADE")%string
  = Some "roles" /\
  forall pre,
    exists g,
      fk_match (pre ++ "Foreign Key (" ++ "role_id, dept_id"
                ++ ") References " ++ "roles" ++ "("
                ++ "id) ON DELETE CASCADE")%string
      = Some g.
Proof.
  apply (fk_match_complete "Foreign Key (" "role_id, dept_id"
                           ") References " "roles"
                           "id) ON DELETE CASCADE");
    try (vm_compute; reflexivity); discriminate.
Defined.

(** X15. Every key of the extracted dict and every dependency it records
    is a non-empty string of word characters. *)
Theorem names_are_words (sql_content : string) (tables : Dict.t)
        (name : string) (info : table_info) :
  extract_table_definitions sql_content = Ok tables ->
  Dict.get name tables = Some info ->
  (name <> EmptyString /\ string_forall PyStr.is_word name = true) /\
  forall r, In r (dependencies info) ->
            r <> EmptyString /\ string_forall PyStr.is_word r = true.
Proof.
  intros Hext Hg. split.
  - assert (Dict.mem name tables = true) as Hm
        by (unfold Dict.mem; now rewrite Hg).
    apply (proj1 (extract_keys_declared _ _ Hext)) in Hm.
    destruct Hm as (raw & _ & D). unfold declared in D.
    apply create_match_inv in D.
    destruct D as (_ & _ & _ & _ & _ & Hne & Hall & _). auto.
  - intros r Hr.
    destruct (extract_dependency_line _ _ _ _ _ Hext Hg Hr)
      as (raw & _ & _ & Hraw).
    unfold referenced in Hraw. apply fk_match_inv in Hraw.
    destruct Hraw as (_ & _ & _ & _ & _ & _ & _ & _ & _ & _ & Hne & Hall).
    auto.
Qed.

Lemma names_are_words_witness :
  ("orders" <> EmptyString /\
   string_forall PyStr.is_word "orders" = true) /\
  forall r, In r ["customers"] ->
            r <> EmptyString /\ string_forall PyStr.is_word r = true.
Proof.
  apply (names_are_words doc_orders_without_customers
           [("orders", mk_info ["customers"] 0)] "orders"
           (mk_info ["customers"] 0)).
  - vm_compute. reflexivity.
  - reflexivity.
Defined.

(** * The entry point *)

Lemma fix_check_returns (tables : Dict.t) :
  snd (fix_check tables) = Returned.
Proof.
  unfold fix_check.
  destruct (Dict.mem "employees" tables) eqn:He; [|reflexivity].
  destruct (Dict.mem "roles" tables) eqn:Hr; [|reflexivity].
  cbn [andb].
  apply DictFacts.mem_keys, list_index_In in He as [i ->].
  apply DictFacts.mem_keys, list_index_In in Hr as [j ->].
  now destruct (Nat.ltb j i).
Qed.

Lemma main_found (sql_content : string) (tables : Dict.t) :
  extract_table_definitions sql_content = Ok tables ->
  main (Some sql_content)
  = match violations tables with
    | [] =>
        (([Banner; Blank; Found (List.length tables)]
          ++ table_lines 0 tables ++ [Blank])
         ++ [ValidationPassed; AllInOrder] ++ fst (fix_check tables),
         Returned)
    | errors =>
        (([Banner; Blank; Found (List.length tables)]
          ++ table_lines 0 tables ++ [Blank])
         ++ [ValidationFailed; ErrorsFound] ++ map ErrorLine errors,
         Exited 1)
    end.
Proof.
  intros Hext. unfold main. rewrite Hext, validate_dependencies_spec.
  destruct (violations tables) as [|v vs]; [|reflexivity].
  pose proof (fix_check_returns tables) as H.
  destruct (fix_check tables) as [more st]. cbn [fst snd] in *.
  now subst st.
Qed.

Lemma main_ends (my_sql : option string) :
  (snd (main my_sql) = Returned
   <-> exists sql_content,
         my_sql = Some sql_content /\ run sql_content = Ok []) /\
  (snd (main my_sql) = Exited 1
   <-> my_sql = None
       \/ exists sql_content e es,
            my_sql = Some sql_content /\ run sql_content = Ok (e :: es)) /\
  (forall x,
      snd (main my_sql) = Uncaught x
      <-> x = ValueError /\
          exists sql_content,
            my_sql = Some sql_content /\
            extract_table_definitions sql_content = Raise ValueError).
Proof.
  destruct my_sql as [sql|].
  - destruct (extract_table_definitions sql) as [tables|e] eqn:Hext.
    + rewrite (main_found _ _ Hext).
      assert (Hrun : run sql = Ok (violations tables)).
      { unfold run. now rewrite Hext, validate_dependencies_spec. }
      destruct (violations tables) as [|v vs] eqn:Hv; cbn [snd].
      * split; [|split].
        -- split; [intros _; exists sql; auto|reflexivity].
        -- split; [discriminate|].
           intros [H|(s & e & es & [= <-] & H)]; congruence.
        -- intros x. split; [discriminate|].
           intros (_ & s & [= <-] & H). congruence.
      * split; [|split].
        -- split; [discriminate|].
           intros (s & [= <-] & H). congruence.
        -- split; [|reflexivity]. intros _. right. exists sql, v, vs. auto.
        -- intros x. split; [discriminate|].
           intros (_ & s & [= <-] & H). congruence.
    + assert (e = ValueError) as ->.
      { exact (proj2 (extract_returns_iff_findable_aux sql) e Hext). }
      assert (Hrun : run sql = Raise ValueError).
      { unfold run. now rewrite Hext. }
      unfold main. rewrite Hext. cbn [snd]. split; [|split].
      * split; [discriminate|]. intros (s & [= <-] & H). congruence.
      * split; [discriminate|].
        intros [H|(s & e & es & [= <-] & H)]; congruence.
      * intros x. split.
        -- intros [= <-]. split; [reflexivity|]. exists sql. auto.
        -- intros (-> & _). reflexivity.
  - cbn [main snd]. split; [|split].
    + split; [discriminate|]. intros (s & H & _). discriminate.
    + split; [auto|reflexivity].
    + intros x. split; [discriminate|].
      intros (_ & s & H & _). discriminate.
Qed.

Lemma snd_main_from_file_text (sql_content : string) :
  snd (main_from_file (ReadText sql_content))
  = Ended (snd (main (Some sql_content))).
Proof.
  unfold main_from_file. now destruct (main (Some sql_content)).
Qed.

(** X16. How the script ends, printing taken to succeed. [main] returns
    normally exactly when the file is read and the run finds no
    violation; it exits with status 1 exactly when [open] raises
    [FileNotFoundError] or the run finds a violation; the extractor's
    [ValueError] is the only exception that escapes once the file is
    read; and every other exception of [open] or [read] escapes as it is,
    before anything is printed. *)
Theorem main_status (o : read_outcome) :
  (snd (main_from_file o) = Ended Returned
   <-> exists sql_content,
         o = ReadText sql_content /\ run sql_content = Ok []) /\
  (snd (main_from_file o) = Ended (Exited 1)
   <-> o = ReadRaised FileNotFoundError
       \/ exists sql_content e es,
            o = ReadText sql_content /\ run sql_content = Ok (e :: es)) /\
  (forall x,
      snd (main_from_file o) = Ended (Uncaught x)
      <-> x = ValueError /\
          exists sql_content,
            o = ReadText sql_content /\
            extract_table_definitions sql_content = Raise ValueError) /\
  (forall e,
      snd (main_from_file o) = Escaped e
      <-> o = ReadRaised e /\ e <> FileNotFoundError) /\
  (forall e,
      snd (main_from_file o) = Escaped e -> fst (main_from_file o) = []).
Proof.
  destruct o as [sql|e0].
  - rewrite snd_main_from_file_text.
    destruct (main_ends (Some sql)) as (H1 & H2 & H3).
    split; [|split; [|split; [|split]]].
    + split.
      * intros [= H]. apply H1 in H as (s & [= <-] & H). eauto.
      * intros (s & [= <-] & H). f_equal. apply H1. eauto.
    + split.
      * intros [= H]. apply H2 in H as [H|(s & e & es & [= <-] & H)];
          [discriminate|]. right. eauto.
      * intros [H|(s & e & es & [= <-] & H)]; [discriminate|].
        f_equal. apply H2. right. eauto.
    + intros x. split.
      * intros [= H]. apply H3 in H as (-> & s & [= <-] & H). eauto.
      * intros (-> & s & [= <-] & H). f_equal. apply H3. eauto.
    + intros e. split; [discriminate|]. intros [H _]. discriminate.
    + discriminate.
  - destruct e0; cbn [main_from_file main fst snd].
    all: split; [|split; [|split; [|split]]].
    all: try (split; [discriminate|];
              first [ intros (s & H & _); discriminate
                    | intros [[= H]|(s & e & es & H & _)]; discriminate ]).
    all: try (intros x; split; [discriminate|];
              intros (_ & s & H & _); discriminate).
    all: try discriminate.
    all: try (split; [intros _; now left|reflexivity]).
    all: try reflexivity.
    all: try (intros e; split;
              [ intros [= <-]; split; [reflexivity|discriminate]
              | intros [[= <-] H]; first [reflexivity|congruence] ]).
    all: try (intros e; split; [discriminate|];
              intros [[= <-] H]; congruence).
Qed.

Lemma table_lines_In (i : Z) (items : Dict.t) (x : printed) :
  In x (table_lines i items) -> exists n name d, x = TableLine n name d.
Proof.
  revert i; induction items as [|[k v] items IH]; intros i; simpl;
    [contradiction|].
  intros [<-|H]; eauto.
Qed.

Lemma error_lines_table_lines (i : Z) (items : Dict.t) :
  error_lines (table_lines i items) = [].
Proof.
  revert i; induction items as [|[k v] items IH]; intros i; simpl;
    [reflexivity|]. apply IH.
Qed.

Lemma error_lines_map (errors : list violation) :
  error_lines (map ErrorLine errors) = errors.
Proof.
  unfold error_lines.
  induction errors as [|e errors IH]; simpl; [reflexivity|]. now f_equal.
Qed.

Lemma error_lines_fix_check (tables : Dict.t) :
  error_lines (fst (fix_check tables)) = [].
Proof.
  unfold fix_check.
  destruct (Dict.mem "employees" tables && Dict.mem "roles" tables);
    [|reflexivity].
  destruct (list_index "employees" (Dict.keys tables)); [|reflexivity].
  destruct (list_index "roles" (Dict.keys tables)); [|reflexivity].
  now destruct (Nat.ltb _ _).
Qed.

(** X17. [main] prints the violations of the run, all of them, in the
    order of the list and each once, and no other error line; when the
    extractor raises it prints none. *)
Theorem main_prints_every_violation (sql_content : string) :
  error_lines (fst (main (Some sql_content)))
  = match run sql_content with
    | Ok errors => errors
    | Raise _ => []
    end.
Proof.
  destruct (extract_table_definitions sql_content) as [tables|e] eqn:Hext.
  - rewrite (main_found _ _ Hext).
    assert (Hrun : run sql_content = Ok (violations tables)).
    { unfold run. now rewrite Hext, validate_dependencies_spec. }
    rewrite Hrun. unfold error_lines.
    destruct (violations tables) as [|v vs] eqn:Hv; cbn [fst].
    + rewrite !flat_map_app. fold (error_lines (table_lines 0 tables)).
      fold (error_lines (fst (fix_check tables))).
      now rewrite error_lines_table_lines, error_lines_fix_check.
    + rewrite !flat_map_app. fold (error_lines (table_lines 0 tables)).
      fold (error_lines (map ErrorLine (v :: vs))).
      now rewrite error_lines_table_lines, error_lines_map.
  - unfold run, main. now rewrite Hext.
Qed.

Lemma listed_table_lines (i : Z) (items : Dict.t) :
  listed_tables (table_lines i items)
  = combine (map (fun k => (i + 1 + Z.of_nat k)%Z)
                 (seq 0 (List.length items)))
            (Dict.keys items).
Proof.
  revert i; induction items as [|[k v] items IH]; intros i;
    [reflexivity|].
  cbn [table_lines listed_tables flat_map List.length seq map combine
       Dict.keys fst app].
  rewrite Z.add_0_r. f_equal.
  fold (listed_tables (table_lines (i + 1) items)). rewrite IH.
  rewrite <- seq_shift, map_map. f_equal. apply map_ext.
  intros k0. lia.
Qed.

(** X18. When the extractor returns, [main] announces the number of keys
    and lists every key once, in the order of the dict, numbered from 1,
    whether or not violations follow. *)
Theorem main_lists_every_table (sql_content : string) (tables : Dict.t) :
  extract_table_definitions sql_content = Ok tables ->
  In (Found (List.length tables)) (fst (main (Some sql_content))) /\
  listed_tables (fst (main (Some sql_content)))
  = combine (map (fun k => Z.of_nat (S k)) (seq 0 (List.length tables)))
            (Dict.keys tables).
Proof.
  intros Hext. rewrite (main_found _ _ Hext).
  assert (Hfix : listed_tables (fst (fix_check tables)) = []).
  { unfold fix_check.
    destruct (Dict.mem "employees" tables && Dict.mem "roles" tables);
      [|reflexivity].
    destruct (list_index "employees" (Dict.keys tables)); [|reflexivity].
    destruct (list_index "roles" (Dict.keys tables)); [|reflexivity].
    now destruct (Nat.ltb _ _). }
  assert (Herr : forall errors, listed_tables (map ErrorLine errors) = []).
  { induction errors as [|e errors IH]; [reflexivity|exact IH]. }
  assert (Hlist : listed_tables (table_lines 0 tables)
                  = combine (map (fun k => Z.of_nat (S k))
                                 (seq 0 (List.length tables)))
                            (Dict.keys tables)).
  { rewrite listed_table_lines. f_equal. apply map_ext. intros k. lia. }
  assert (Happ : forall a b,
             listed_tables (a ++ b) = listed_tables a ++ listed_tables b).
  { intros a b. apply flat_map_app. }
  destruct (violations tables) as [|v vs]; cbn [fst]; split;
    try (simpl; tauto).
  - rewrite !Happ, Hlist, Hfix. cbn [listed_tables flat_map app].
    now rewrite !app_nil_r.
  - rewrite !Happ, Hlist, Herr. cbn [listed_tables flat_map app].
    now rewrite !app_nil_r.
Qed.

Lemma main_lists_every_table_witness :
  let tables := [("employees", mk_info ["roles"] 0);
                 ("roles", mk_info [] 4)] in
  In (Found (List.length tables))
     (fst (main (Some doc_employees_then_roles))) /\
  listed_tables (fst (main (Some doc_employees_then_roles)))
  = combine (map (fun k => Z.of_nat (S k)) (seq 0 (List.length tables)))
            (Dict.keys tables).
Proof.
  intros tables.
  apply (main_lists_every_table doc_employees_then_roles tables).
  vm_compute. reflexivity.
Defined.

Lemma fix_check_cases (tables : Dict.t) :
  (fst (fix_check tables) = []
   /\ (Dict.mem "employees" tables = false
       \/ Dict.mem "roles" tables = false))
  \/ exists i j,
       list_index "employees" (Dict.keys tables) = Some i /\
       list_index "roles" (Dict.keys tables) = Some j /\
       ((j < i /\ fst (fix_check tables) = [FixConfirmed])
        \/ (i < j /\ fst (fix_check tables) = [IssueStillExists])).
Proof.
  unfold fix_check.
  destruct (Dict.mem "employees" tables) eqn:He; [|left; auto].
  destruct (Dict.mem "roles" tables) eqn:Hr; [|left; auto].
  cbn [andb]. right.
  apply DictFacts.mem_keys, list_index_In in He as [i Hi].
  apply DictFacts.mem_keys, list_index_In in Hr as [j Hj].
  rewrite Hi, Hj. exists i, j. split; [reflexivity|].
  split; [reflexivity|].
  destruct (Nat.ltb_spec j i) as [Hlt|Hge]; [left; auto|right].
  split; [|reflexivity].
  apply list_index_Some in Hi as [Hi _].
  apply list_index_Some in Hj as [Hj _].
  assert (i <> j) by (intros ->; congruence). lia.
Qed.

Lemma listing_In (tables : Dict.t) (x : printed) :
  In x ([Banner; Blank; Found (List.length tables)]
        ++ table_lines 0 tables ++ [Blank]) ->
  x = Banner \/ x = Blank \/ x = Found (List.length tables)
  \/ exists n name d, x = TableLine n name d.
Proof.
  rewrite !in_app_iff. simpl.
  intros [[H|[H|[H|[]]]]|[H|[H|[]]]]; auto.
  apply table_lines_In in H. auto.
Qed.

Lemma recorded_reference_ordered (tables : Dict.t) (i : nat) :
  violations tables = [] ->
  list_index "employees" (Dict.keys tables) = Some i ->
  In "roles" (deps_of tables "employees") ->
  exists j, list_index "roles" (Dict.keys tables) = Some j /\ j < i.
Proof.
  intros Hnil Hi Hr. unfold deps_of in Hr.
  destruct (Dict.get "employees" tables) as [info|] eqn:Hg;
    [|contradiction].
  pose proof (proj1 (list_index_Some _ _ _ Hi)) as Hn.
  assert (fst (validate_dependencies tables) = Ok []) as Hv
      by (now rewrite validate_dependencies_spec, Hnil).
  destruct (proj1 (violations_nil_iff_ordered tables) Hv i _ info _ Hn Hg Hr)
    as (j & Hj & Hle).
  exists j. split; [exact Hj|].
  apply list_index_Some in Hj as [Hj _].
  assert (i <> j) by (intros ->; congruence). lia.
Qed.

(** X19. When the run finds no violation and [employees] records a
    dependency on [roles], [main] prints that the fix is confirmed and
    does not print that the issue still exists. *)
Theorem fix_confirmed_when_reference_recorded (sql_content : string)
        (tables : Dict.t) :
  extract_table_definitions sql_content = Ok tables ->
  run sql_content = Ok [] ->
  In "roles" (deps_of tables "employees") ->
  In FixConfirmed (fst (main (Some sql_content))) /\
  ~ In IssueStillExists (fst (main (Some sql_content))).
Proof.
  intros Hext Hrun Hr.
  assert (Hnil : violations tables = []).
  { unfold run in Hrun. rewrite Hext, validate_dependencies_spec in Hrun.
    now injection Hrun. }
  rewrite (main_found _ _ Hext), Hnil. cbn [fst].
  destruct (fix_check_cases tables)
    as [[Hf [Hm|Hm]]|(i & j & Hi & Hj & [[Hlt Hf]|[Hlt Hf]])].
  - exfalso. unfold deps_of, Dict.mem in *.
    destruct (Dict.get "employees" tables); [discriminate|contradiction].
  - exfalso. unfold deps_of in Hr.
    destruct (Dict.get "employees" tables) as [info|] eqn:Hg;
      [|contradiction].
    assert (Dict.mem "employees" tables = true) as He
        by (unfold Dict.mem; now rewrite Hg).
    apply DictFacts.mem_keys, list_index_In in He as [i Hi].
    destruct (recorded_reference_ordered tables i Hnil Hi) as (j & Hj & _).
    { unfold deps_of. now rewrite Hg. }
    apply list_index_Some in Hj as [Hj _]. apply nth_error_In in Hj.
    apply DictFacts.mem_keys in Hj. congruence.
  - rewrite Hf. split.
    + rewrite !in_app_iff. right. simpl. auto.
    + rewrite in_app_iff. intros [H|H].
      * apply listing_In in H.
        destruct H as [H|[H|[H|(n & nm & d & H)]]]; discriminate.
      * simpl in H. destruct H as [H|[H|[H|[]]]]; discriminate.
  - exfalso.
    destruct (recorded_reference_ordered tables i Hnil Hi Hr)
      as (j' & Hj' & Hlt').
    rewrite Hj in Hj'. injection Hj' as <-. lia.
Qed.

Lemma fix_confirmed_when_reference_recorded_witness :
  In FixConfirmed (fst (main (Some doc_roles_then_employees))) /\
  ~ In IssueStillExists (fst (main (Some doc_roles_then_employees))).
Proof.
  apply (fix_confirmed_when_reference_recorded doc_roles_then_employees
           [("roles", mk_info [] 0); ("employees", mk_info ["roles"] 3)]).
  - vm_compute. reflexivity.
  - vm_compute. reflexivity.
  - vm_compute. auto.
Defined.

Lemma issue_still_exists_only_if (my_sql : option string) :
  In IssueStillExists (fst (main my_sql)) ->
  snd (main my_sql) = Returned /\
  In ValidationPassed (fst (main my_sql)) /\
  exists sql_content tables i j,
    my_sql = Some sql_content /\
    extract_table_definitions sql_content = Ok tables /\
    run sql_content = Ok [] /\
    list_index "employees" (Dict.keys tables) = Some i /\
    list_index "roles" (Dict.keys tables) = Some j /\
    i < j /\
    ~ In "roles" (deps_of tables "employees").
Proof.
  destruct my_sql as [sql|]; [|simpl; intros [H|[]]; discriminate].
  destruct (extract_table_definitions sql) as [tables|e] eqn:Hext.
  2:{ unfold main. rewrite Hext. simpl.
      intros [H|[H|[]]]; discriminate. }
  rewrite (main_found _ _ Hext).
  assert (Hrun : run sql = Ok (violations tables)).
  { unfold run. now rewrite Hext, validate_dependencies_spec. }
  destruct (violations tables) as [|v vs] eqn:Hnil; cbn [fst snd].
  - intros Hin. split; [reflexivity|]. split.
    { rewrite !in_app_iff. right. simpl. auto. }
    destruct (fix_check_cases tables)
      as [[Hf _]|(i & j & Hi & Hj & [[Hlt Hf]|[Hlt Hf]])];
      rewrite Hf in Hin; rewrite in_app_iff in Hin.
    + exfalso. destruct Hin as [H|H].
      * apply listing_In in H.
        destruct H as [H|[H|[H|(n & nm & d & H)]]]; discriminate.
      * simpl in H. destruct H as [H|[H|[]]]; discriminate.
    + exfalso. destruct Hin as [H|H].
      * apply listing_In in H.
        destruct H as [H|[H|[H|(n & nm & d & H)]]]; discriminate.
      * simpl in H. destruct H as [H|[H|[H|[]]]]; discriminate.
    + exists sql, tables, i, j. repeat split; auto.
      intros Hr.
      destruct (recorded_reference_ordered tables i Hnil Hi Hr)
        as (j' & Hj' & Hlt').
      rewrite Hj in Hj'. injection Hj' as <-. lia.
  - intros Hin. exfalso. rewrite in_app_iff in Hin.
    destruct Hin as [H|H].
    + apply listing_In in H.
      destruct H as [H|[H|[H|(n & nm & d & H)]]]; discriminate.
    + simpl in H. destruct H as [H|[H|[H|H]]]; try discriminate.
      apply in_map_iff in H as (x & Hx & _). discriminate.
Qed.

(** X20. [main] prints that the issue still exists exactly when the file
    is read, the extractor returns, the run finds no violation and [roles]
    is a key that stands after the key [employees]; the line then comes
    next to the message that validation passed, [main] returns normally,
    and [employees] records no dependency on [roles]. *)
Theorem issue_still_exists_with_validation_passed (my_sql : option string) :
  (In IssueStillExists (fst (main my_sql))
   <-> exists sql_content tables i j,
         my_sql = Some sql_content /\
         extract_table_definitions sql_content = Ok tables /\
         run sql_content = Ok [] /\
         list_index "employees" (Dict.keys tables) = Some i /\
         list_index "roles" (Dict.keys tables) = Some j /\
         i < j) /\
  (In IssueStillExists (fst (main my_sql)) ->
   snd (main my_sql) = Returned /\
   In ValidationPassed (fst (main my_sql)) /\
   exists sql_content tables i j,
     my_sql = Some sql_content /\
     extract_table_definitions sql_content = Ok tables /\
     run sql_content = Ok [] /\
     list_index "employees" (Dict.keys tables) = Some i /\
     list_index "roles" (Dict.keys tables) = Some j /\
     i < j /\
     ~ In "roles" (deps_of tables "employees")).
Proof.
  split; [split|exact (issue_still_exists_only_if my_sql)].
  - intros H. apply issue_still_exists_only_if in H.
    destruct H as (_ & _ & sql & tables & i & j & H1 & H2 & H3 & H4 & H5
                   & H6 & _).
    exists sql, tables, i, j. auto 10.
  - intros (sql & tables & i & j & -> & Hext & Hrun & Hi & Hj & Hlt).
    assert (Hnil : violations tables = []).
    { unfold run in Hrun. rewrite Hext, validate_dependencies_spec in Hrun.
      now injection Hrun. }
    rewrite (main_found _ _ Hext), Hnil. cbn [fst].
    rewrite !in_app_iff. right. right.
    destruct (fix_check_cases tables)
      as [[_ [Hm|Hm]]|(i' & j' & Hi' & Hj' & [[Hlt' _]|[_ Hf]])].
    + apply list_index_Some in Hi as [Hi _]. apply nth_error_In in Hi.
      apply DictFacts.mem_keys in Hi. congruence.
    + apply list_index_Some in Hj as [Hj _]. apply nth_error_In in Hj.
      apply DictFacts.mem_keys in Hj. congruence.
    + exfalso. rewrite Hi in Hi'. rewrite Hj in Hj'.
      injection Hi' as <-. injection Hj' as <-. lia.
    + rewrite Hf. now left.
Qed.

Lemma issue_still_exists_with_validation_passed_witness :
  In IssueStillExists (fst (main (Some doc_employees_roles_unrelated))) /\
  snd (main (Some doc_employees_roles_unrelated)) = Returned /\
  In ValidationPassed (fst (main (Some doc_employees_roles_unrelated))).
Proof.
  assert (In IssueStillExists
             (fst (main (Some doc_employees_roles_unrelated)))) as H.
  { apply (proj1 (issue_still_exists_with_validation_passed
                    (Some doc_employees_roles_unrelated))).
    exists doc_employees_roles_unrelated,
      [("employees", mk_info [] 0); ("roles", mk_info [] 3)], 0, 1.
    vm_compute. auto 10. }
  split; [exact H|].
  destruct (proj2 (issue_still_exists_with_validation_passed
                     (Some doc_employees_roles_unrelated)) H)
    as (H1 & H2 & _).
  auto.
Defined.

(** X21. The validator raises no false alarm: a table is reported as
    undefined only when it is a recorded dependency of the subject and not
    a key of the dict, and as defined later only when it is a recorded
    dependency of the subject and a key of the dict; the subject is always
    a key. *)
Theorem violations_are_genuine (tables : Dict.t)
        (errors : list violation) (v : violation) :
  fst (validate_dependencies tables) = Ok errors ->
  In v errors ->
  Dict.mem (subject v) tables = true /\
  In (target v) (deps_of tables (subject v)) /\
  match v with
  | UndeclaredReference _ r => Dict.mem r tables = false
  | ForwardReference _ _ r _ => Dict.mem r tables = true
  end.
Proof.
  rewrite validate_dependencies_spec. cbn [fst]. intros [= <-] Hv.
  apply violations_from_In in Hv. destruct Hv as (k & Hk & Hd & Hc).
  split; [|split; [exact Hd|]].
  - apply DictFacts.mem_keys. exact (nth_error_In _ _ Hk).
  - unfold check in Hc.
    destruct (Dict.mem (target v) tables) eqn:Hm; cbn [negb] in Hc.
    + destruct (list_index (target v) (Dict.keys tables)); [|contradiction].
      destruct (_ >? _)%Z; [|contradiction].
      destruct Hc as [<-|[]]. exact Hm.
    + destruct Hc as [<-|[]]. exact Hm.
Qed.

Lemma violations_are_genuine_witness :
  let tables := [("orders", mk_info ["customers"; "items"] 0);
                 ("items", mk_info [] 3)] in
  Dict.mem "orders" tables = true /\
  In "customers" (deps_of tables "orders") /\
  Dict.mem "customers" tables = false.
Proof.
  intros tables.
  apply (violations_are_genuine tables
           [UndeclaredReference "orders" "customers";
            ForwardReference "orders" 1 "items" 2]
           (UndeclaredReference "orders" "customers")).
  - reflexivity.
  - simpl. auto.
Defined.
